(** * gridmaker: a labelled grid overlay on a raster image

    A shallow embedding of [gridmaker.py] (functions [get_column_label],
    [draw_grid] and [main]) together with the properties of its
    specification.

    Python integers are [Z]; [//] and [%] are [Z.div] and [Z.modulo]
    (both floor, as in Python).  A Python [str] is a list of Unicode code
    points.  Raising an exception is a [Raise] result. *)

From Stdlib Require Import ZArith List String Ascii Bool Lia DecimalString.
Import ListNotations.
Open Scope Z_scope.

(* ------------------------------------------------------------------ *)
(** ** Python values, exceptions and built-ins *)

Module Py.

(** The class of an exception, as far as the program's handlers and
    raises tell classes apart: the most specific of these the exception is
    an instance of.  [FileNotFoundError] is a subclass of [OSError], and
    all are subclasses of [Exception]. *)
Inductive ExcClass : Type :=
| FileNotFoundError
| ValueError
| ZeroDivisionError
| OverflowError
| OSError
| Exception.

Record Exc : Type := mkExc { exc_class : ExcClass; exc_msg : string }.

Inductive Result (A : Type) : Type :=
| Ok (a : A)
| Raise (e : Exc).
Arguments Ok {A} a.
Arguments Raise {A} e.

Definition bind {A B} (m : Result A) (k : A -> Result B) : Result B :=
  match m with
  | Ok a => k a
  | Raise e => Raise e
  end.

Definition raises {A} (r : Result A) : Prop := exists e, r = Raise e.

(** [str]: a sequence of code points. *)
Definition str : Type := list Z.

Definition ord (c : ascii) : Z := Z.of_N (N_of_ascii c).

(** The [str] of a literal. *)
Definition lit (s : string) : str := map ord (list_ascii_of_string s).

(** [chr(i)]: the one-character string of code point [i].  The argument
    is first converted to a C [int]: an [OverflowError] when it does not
    fit one; then a [ValueError] outside [range(0x110000)]. *)
Definition chr (i : Z) : Result str :=
  if (0 <=? i) && (i <? 1114112) then Ok [i]
  else if (-2147483648 <=? i) && (i <=? 2147483647) then
    Raise (mkExc ValueError "chr() arg not in range(0x110000)")
  else
    Raise (mkExc OverflowError "Python int too large to convert to C int").

(** [a // b] with its [ZeroDivisionError]. *)
Definition floordiv (a b : Z) : Result Z :=
  if b =? 0
  then Raise (mkExc ZeroDivisionError "integer division or modulo by zero")
  else Ok (a / b).

(** [range(n)] = 0, 1, ..., n-1 (empty when [n <= 0]). *)
Definition range (n : Z) : list Z := map Z.of_nat (seq 0 (Z.to_nat n)).

(** [str(n)] for an integer: its decimal numeral. *)
Definition string_of_int (n : Z) : string :=
  NilZero.string_of_int (Z.to_int n).

Definition str_of_int (n : Z) : str := lit (string_of_int n).

End Py.
Import Py.

Declare Scope py_scope.
Delimit Scope py_scope with py.
Notation "x <- m ;; k" := (bind m (fun x => k))
  (at level 61, m at next level, right associativity) : py_scope.
Open Scope py_scope.

(* ------------------------------------------------------------------ *)
(** ** [get_column_label] *)

(** [[
    if index < 26:
        return chr(65 + index)
    else:
        return chr(65 + (index // 26) - 1) + chr(65 + (index % 26))
    ]] *)
Definition get_column_label (index : Z) : Result str :=
  if index <? 26 then
    chr (65 + index)
  else
    c1 <- chr (65 + (index / 26) - 1) ;;
    c2 <- chr (65 + (index mod 26)) ;;
    Ok (c1 ++ c2).

(** The specification's words: the 26-letter alphabet, the letter at a
    position of it (there is none outside 0..25), and the label built from
    such letters. *)
Definition alphabet : str := lit "ABCDEFGHIJKLMNOPQRSTUVWXYZ".

Definition letter_at (p : Z) : option Z :=
  if p <? 0 then None else nth_error alphabet (Z.to_nat p).

Definition spec_label (index : Z) : option str :=
  if index <? 26 then
    match letter_at index with
    | Some c => Some [c]
    | None => None
    end
  else
    match letter_at (index / 26 - 1), letter_at (index mod 26) with
    | Some c1, Some c2 => Some [c1; c2]
    | _, _ => None
    end.

(** A character of 'A'..'Z'. *)
Definition is_upper (c : Z) : bool := (65 <=? c) && (c <=? 90).

(** From this index on, [65 + index // 26 - 1] is no code point. *)
Definition label_limit : Z := 28965248.

(** And from this one on, it does not fit a C [int]. *)
Definition label_overflow_limit : Z := 55834573184.


(* ------------------------------------------------------------------ *)
(** ** Pillow: images, fonts and the drawing calls the program makes

    Pillow is a library, not code of this repository.  What the program
    uses of it is modelled here: its 8-bit RGBA raster, the three
    [ImageDraw] calls ([line], [rectangle], [text]) and
    [Image.alpha_composite].  The geometry of a stroke and the blending of
    anti-aliased glyphs are parameters ([Rasterizer]). *)

Module PIL.

Record RGBA : Type := mkRGBA { red : Z; green : Z; blue : Z; alpha : Z }.

Definition Point : Type := (Z * Z)%type.

(** A box [(x0, y0, x1, y1)]. *)
Definition Box : Type := (Z * Z * Z * Z)%type.

(** A colour argument [(r, g, b, a)] of a drawing call. *)
Definition Color : Type := (Z * Z * Z * Z)%type.

(** [getpixel] gives a pixel as RGBA (for an image of another mode, the
    pixel [convert("RGBA")] gives it).  [im_format] is [image.format] as
    printed. *)
Record Image : Type := mkImage {
  im_format : string;
  mode : string;
  size : Z * Z;
  getpixel : Point -> RGBA
}.

Definition in_bounds (im : Image) (p : Point) : bool :=
  (0 <=? fst p) && (fst p <? fst (size im)) &&
  (0 <=? snd p) && (snd p <? snd (size im)).

(** A channel is a byte. *)
Definition valid_channel (v : Z) : Prop := 0 <= v <= 255.

Definition valid_px (c : RGBA) : Prop :=
  valid_channel (red c) /\ valid_channel (green c) /\
  valid_channel (blue c) /\ valid_channel (alpha c).

(** Pillow clips every channel of a colour argument to a byte. *)
Definition CLIP8 (v : Z) : Z := if v <? 0 then 0 else if 255 <? v then 255 else v.

Definition getink (c : Color) : RGBA :=
  let '(r, g, b, a) := c in mkRGBA (CLIP8 r) (CLIP8 g) (CLIP8 b) (CLIP8 a).

(** [Image.new(mode, size, color)]; a negative size is a [ValueError]. *)
Definition Image_new (m : string) (sz : Z * Z) (c : Color) : Result Image :=
  if (fst sz <? 0) || (snd sz <? 0)
  then Raise (mkExc ValueError "Width and height must be >= 0")
  else Ok (mkImage "None" m sz (fun _ => getink c)).

(** [image.convert("RGBA")]: a new image of the same size. *)
Definition convert_RGBA (im : Image) : Image :=
  mkImage "None" "RGBA" (size im) (getpixel im).

(** A font: the box of a text drawn at the origin ([getbbox]) and the
    coverage (0..255) of its glyphs at a point relative to the origin.
    Glyphs lie inside the box, and the box is not inverted. *)
Record Font : Type := mkFont {
  getbbox : str -> Box;
  coverage : str -> Point -> Z;
  getbbox_wf : forall s,
    let '(x0, y0, x1, y1) := getbbox s in x0 <= x1 /\ y0 <= y1;
  coverage_in_bbox : forall s p,
    coverage s p <> 0 ->
    let '(x0, y0, x1, y1) := getbbox s in
    x0 <= fst p < x1 /\ y0 <= snd p < y1
}.

(** [draw.textbbox(xy, text, font=font)]: the font's box moved to [xy]. *)
Definition textbbox (xy : Point) (text : str) (font : Font) : Box :=
  let '(x0, y0, x1, y1) := getbbox font text in
  (x0 + fst xy, y0 + snd xy, x1 + fst xy, y1 + snd xy).

(** The coverage of the glyphs of [text] drawn at [xy], at pixel [p]. *)
Definition glyph_at (font : Font) (xy : Point) (text : str) (p : Point) : Z :=
  coverage font text (fst p - fst xy, snd p - snd xy).

(** [draw.rectangle] fills both corners' rows and columns. *)
Definition in_box (b : Box) (p : Point) : bool :=
  let '(x0, y0, x1, y1) := b in
  (x0 <=? fst p) && (fst p <=? x1) && (y0 <=? snd p) && (snd p <=? y1).

(** The pixels of a text's box: its right and bottom edges are outside. *)
Definition in_textbox (b : Box) (p : Point) : bool :=
  let '(x0, y0, x1, y1) := b in
  (x0 <=? fst p) && (fst p <? x1) && (y0 <=? snd p) && (snd p <? y1).

(** What Pillow's rasteriser decides: the pixels a line of a given width
    from [a] to [b] covers, and how a glyph pixel of coverage [m] blends
    ink into the pixel under it. *)
Class Rasterizer : Type := {
  stroke : Point -> Point -> Z -> Point -> bool;
  blend : Z -> RGBA -> RGBA -> RGBA
}.

(** The calls on an [ImageDraw] object. *)
Inductive DrawCmd : Type :=
| Line (a b : Point) (fill : Color) (width : Z)
| Rectangle (box : Box) (fill : Color)
| Text (xy : Point) (text : str) (fill : Color) (font : Font).

(** Drawing on an RGBA image replaces the pixels of a region by the ink
    (no blending), clipped to the image. *)
Definition paint (region : Point -> bool) (ink : RGBA) (im : Image) : Image :=
  mkImage (im_format im) (mode im) (size im)
    (fun p => if in_bounds im p && region p then ink else getpixel im p).

Definition draw_text `{Rasterizer} (xy : Point) (text : str) (ink : RGBA)
    (font : Font) (im : Image) : Image :=
  mkImage (im_format im) (mode im) (size im)
    (fun p =>
       let m := glyph_at font xy text p in
       if in_bounds im p && negb (m =? 0) then blend m (getpixel im p) ink
       else getpixel im p).

Definition exec `{Rasterizer} (im : Image) (c : DrawCmd) : Image :=
  match c with
  | Line a b fill w => paint (stroke a b w) (getink fill) im
  | Rectangle box fill => paint (in_box box) (getink fill) im
  | Text xy text fill font => draw_text xy text (getink fill) font im
  end.

(** The pixels a call can change. *)
Definition touches `{Rasterizer} (c : DrawCmd) (p : Point) : bool :=
  match c with
  | Line a b _ w => stroke a b w p
  | Rectangle box _ => in_box box p
  | Text xy text _ font => negb (glyph_at font xy text p =? 0)
  end.

(** The region of a call: a line's stroke, a rectangle, a text's box. *)
Definition region `{Rasterizer} (c : DrawCmd) (p : Point) : bool :=
  match c with
  | Line a b _ w => stroke a b w p
  | Rectangle box _ => in_box box p
  | Text xy text _ font => in_textbox (textbbox xy text font) p
  end.

(** [Image.alpha_composite], one pixel ([AlphaComposite.c]): source over
    destination in integers, with 7 more bits of precision. *)
Definition SHIFTFORDIV255 (a : Z) : Z := Z.shiftr (Z.shiftr a 8 + a) 8.

Definition PRECISION_BITS : Z := 7.

Definition alpha_composite_px (dst src : RGBA) : RGBA :=
  if alpha src =? 0 then dst
  else
    let blend_ := alpha dst * (255 - alpha src) in
    let outa255 := alpha src * 255 + blend_ in
    let coef1 := alpha src * 255 * 255 * Z.shiftl 1 PRECISION_BITS / outa255 in
    let coef2 := 255 * Z.shiftl 1 PRECISION_BITS - coef1 in
    let chan (s d : Z) :=
      Z.shiftr (SHIFTFORDIV255 (s * coef1 + d * coef2
                                + Z.shiftl 128 PRECISION_BITS))
               PRECISION_BITS in
    mkRGBA (chan (red src) (red dst)) (chan (green src) (green dst))
           (chan (blue src) (blue dst)) (SHIFTFORDIV255 (outa255 + 128)).

(** [Image.alpha_composite(im1, im2)]: both RGBA and of one size. *)
Definition alpha_composite (im1 im2 : Image) : Result Image :=
  if negb (String.eqb (mode im1) "RGBA") then
    Raise (mkExc ValueError "image has wrong mode")
  else if negb (String.eqb (mode im2) "RGBA")
          || negb (fst (size im1) =? fst (size im2))
          || negb (snd (size im1) =? snd (size im2)) then
    Raise (mkExc ValueError "images do not match")
  else
    Ok (mkImage "None" "RGBA" (size im1)
          (fun p => alpha_composite_px (getpixel im1 p) (getpixel im2 p))).

End PIL.
Import PIL.

(* ------------------------------------------------------------------ *)
(** ** What a run does: a trace of events and a result *)

Inductive Level : Type := DEBUG | INFO | WARNING | ERROR.

Inductive Event : Type :=
| Log (lvl : Level) (msg : string)       (* a record of [logger]; the
                                            handler of [basicConfig] writes
                                            it to [sys.stderr] *)
| PrintOut (line : string)               (* [print(line)] *)
| PrintErr (line : string)               (* [print(line, file=sys.stderr)] *)
| Saved (path : string) (im : Image).    (* [im.save(path, format="PNG")] *)

(** A computation: the events it makes, then a value or an exception. *)
Definition M (A : Type) : Type := (list Event * Result A)%type.

Definition ret {A} (a : A) : M A := ([], Ok a).

Definition bindM {A B} (m : M A) (k : A -> M B) : M B :=
  match m with
  | (ev, Ok a) => let '(ev', r) := k a in (ev ++ ev', r)
  | (ev, Raise e) => (ev, Raise e)
  end.

Definition lift {A} (r : Result A) : M A := ([], r).

Definition emit (e : Event) : M unit := ([e], Ok tt).

Notation "x <~ m ;; k" := (bindM m (fun x => k))
  (at level 61, m at next level, right associativity) : py_scope.
Notation "m ;;; k" := (bindM m (fun _ => k))
  (at level 61, right associativity) : py_scope.

(** [for x in xs: body(x)], each turn giving the drawing calls it made;
    an exception ends the loop. *)
Fixpoint for_each {A B} (xs : list A) (body : A -> Result (list B))
  : Result (list B) :=
  match xs with
  | [] => Ok []
  | x :: xs' =>
      c <- body x ;;
      cs <- for_each xs' body ;;
      Ok (c ++ cs)
  end.

(* ------------------------------------------------------------------ *)
(** ** [draw_grid] *)

(** The fonts of the machine: [ImageFont.truetype(path, size)] ([None]
    for its [IOError]) and [ImageFont.load_default()]. *)
Record Fonts : Type := mkFonts {
  truetype : string -> Z -> option Font;
  load_default : Font
}.

Definition system_fonts : list string :=
  [ "/System/Library/Fonts/Helvetica.ttc";
    "/usr/share/fonts/truetype/dejavu/DejaVuSans.ttf";
    "/Windows/Fonts/arial.ttf" ]%string.

(** The [for font_path in system_fonts: ... break ... else: ...] loop. *)
Fixpoint try_fonts (fs : Fonts) (paths : list string) (font_size : Z)
  : M Font :=
  match paths with
  | [] =>
      emit (Log WARNING "Could not load a TrueType font, using default font") ;;;
      ret (load_default fs)
  | font_path :: rest =>
      match truetype fs font_path font_size with
      | Some font => ret font
      | None => try_fonts fs rest font_size
      end
  end.

Definition load_font (fs : Fonts) (font_size : Z) : M Font :=
  match truetype fs "Arial.ttf" font_size with
  | Some font => ret font
  | None => try_fonts fs system_fonts font_size
  end.

(** The text's box padded by 2 pixels on each side. *)
Definition bg_box (label_bbox : Box) : Box :=
  let '(b0, b1, b2, b3) := label_bbox in (b0 - 2, b1 - 2, b2 + 2, b3 + 2).

Section Drawing.
Variables (font : Font) (width height spacing : Z) (grid_color : Color)
          (thickness : Z).

(** One turn of [for i in range(num_horizontal)]. *)
Definition row_cmds (i : Z) : Result (list DrawCmd) :=
  let y := i * spacing in
  if y >=? height then Ok []
  else
    let row_label := str_of_int (i + 1) in
    let label_y := y + thickness + 2 in
    let label_bbox := textbbox (10, label_y) row_label font in
    Ok [ Line (0, y) (width, y) grid_color thickness;
         Rectangle (bg_box label_bbox) (255, 255, 255, 200);
         Text (10, label_y) row_label (0, 0, 0, 255) font ].

(** One turn of [for i in range(num_vertical)]. *)
Definition col_cmds (i : Z) : Result (list DrawCmd) :=
  let x := i * spacing in
  if x >=? width then Ok []
  else
    col_label <- get_column_label i ;;
    let label_x := x + thickness + 2 in
    let label_bbox := textbbox (label_x, 10) col_label font in
    Ok [ Line (x, 0) (x, height) grid_color thickness;
         Rectangle (bg_box label_bbox) (255, 255, 255, 200);
         Text (label_x, 10) col_label (0, 0, 0, 255) font ].

Definition horizontal_cmds (num_horizontal : Z) : Result (list DrawCmd) :=
  for_each (range num_horizontal) row_cmds.

Definition vertical_cmds (num_vertical : Z) : Result (list DrawCmd) :=
  for_each (range num_vertical) col_cmds.

End Drawing.

(** The drawing calls of [draw_grid], in order: the rows' then the
    columns'. *)
Definition grid_cmds (font : Font) (width height spacing : Z)
    (grid_color : Color) (thickness : Z) : Result (list DrawCmd) :=
  q_h <- floordiv height spacing ;;
  q_v <- floordiv width spacing ;;
  rows <- horizontal_cmds font width height spacing grid_color thickness
            (q_h + 1) ;;
  cols <- vertical_cmds font width height spacing grid_color thickness
            (q_v + 1) ;;
  Ok (rows ++ cols).

(** [max(12, min(24, spacing // 5))]. *)
Definition font_size (spacing : Z) : Z := Z.max 12 (Z.min 24 (spacing / 5)).

Definition draw_grid `{Rasterizer} (fs : Fonts) (image : Image) (spacing : Z)
    (color : Z * Z * Z) (opacity thickness : Z) : M Image :=
  let '(width, height) := size image in
  grid_overlay <~ lift (Image_new "RGBA" (width, height) (0, 0, 0, 0)) ;;
  font <~ load_font fs (font_size spacing) ;;
  let grid_color : Color := (color, opacity) in
  q_h <~ lift (floordiv height spacing) ;;
  let num_horizontal := q_h + 1 in
  q_v <~ lift (floordiv width spacing) ;;
  let num_vertical := q_v + 1 in
  emit (Log INFO ("Creating grid with " ++ string_of_int num_horizontal
                  ++ " rows and " ++ string_of_int num_vertical
                  ++ " columns")) ;;;
  emit (Log INFO ("Grid spacing: " ++ string_of_int spacing
                  ++ "px, Line thickness: " ++ string_of_int thickness
                  ++ "px")) ;;;
  rows <~ lift (horizontal_cmds font width height spacing grid_color
                  thickness num_horizontal) ;;
  cols <~ lift (vertical_cmds font width height spacing grid_color
                  thickness num_vertical) ;;
  let drawn := fold_left exec (rows ++ cols) grid_overlay in
  lift (alpha_composite (convert_RGBA image) drawn).

(* ------------------------------------------------------------------ *)
(** ** [main] *)

(** The namespace [parse_args()] returns. *)
Record Args : Type := mkArgs {
  input_image : string;
  spacing : Z;
  color : Z * Z * Z;
  opacity : Z;
  thickness : Z;
  output : option string;
  debug : bool
}.

(** What [main] asks of the machine it runs on.  [Image.open] reads no
    more than the header of the file (format, mode, size); the pixel data
    is decoded when it is first needed, by the first [image.convert]:
    [Image_load] is that decoding and what it may raise (an [OSError] on
    a truncated file). *)
Record World : Type := mkWorld {
  os_path_exists : string -> bool;
  os_path_basename : string -> string;
  os_path_splitext : string -> string * string;
  Image_open : string -> Result Image;
  Image_load : Image -> Result unit;
  fonts : Fonts;
  Image_save : Image -> string -> Result unit
}.

(** [logger.debug]: a record only when [--debug] has lowered the level. *)
Definition logger_debug (dbg : bool) (msg : string) : M unit :=
  if dbg then emit (Log DEBUG msg) else ret tt.

Definition repr_size (sz : Z * Z) : string :=
  "(" ++ string_of_int (fst sz) ++ ", " ++ string_of_int (snd sz) ++ ")".

(** [args.opacity = v]. *)
Definition set_opacity (args : Args) (v : Z) : Args :=
  mkArgs (input_image args) (spacing args) (color args) v (thickness args)
         (output args) (debug args).

(** The body of the [try] of [main]; its value is the output path.

    An image that is not RGBA is decoded by the [image.convert('RGBA')]
    of line 226.  An image opened as RGBA reaches [draw_grid] undecoded
    and is decoded by the [image.convert("RGBA")] of line 186, the last
    step of [draw_grid] before the composite: what the decoding raises,
    it raises there, after all that [draw_grid] logs and draws. *)
Definition main_try `{Rasterizer} (w : World) (args : Args) : M string :=
  (if negb (os_path_exists w (input_image args)) then
     lift (A := unit) (Raise (mkExc FileNotFoundError
                     ("Input file not found: " ++ input_image args)))
   else ret tt) ;;;
  emit (Log INFO ("Opening image: " ++ input_image args)) ;;;
  image <~ match Image_open w (input_image args) with
           | Ok image =>
               logger_debug (debug args)
                 ("Image format: " ++ im_format image ++ ", Size: "
                  ++ repr_size (size image) ++ ", Mode: " ++ mode image) ;;;
               ret image
           | Raise e =>
               lift (Raise (mkExc ValueError
                              ("Failed to open image: " ++ exc_msg e)))
           end ;;
  args <~ (if negb ((0 <=? opacity args) && (opacity args <=? 255)) then
             emit (Log WARNING ("Invalid opacity value: "
                                ++ string_of_int (opacity args)
                                ++ ". Using default: 128")) ;;;
             ret (set_opacity args 128)
           else ret args) ;;
  out <~ match output args with
         | None =>
             let base_name :=
               fst (os_path_splitext w (os_path_basename w (input_image args))) in
             let out := (base_name ++ "_grid.png")%string in
             logger_debug (debug args) ("Using default output name: " ++ out) ;;;
             ret out
         | Some out => ret out
         end ;;
  rgba <~ (if negb (String.eqb (mode image) "RGBA") then
             logger_debug (debug args)
               ("Converting image from " ++ mode image ++ " to RGBA") ;;;
             lift (Image_load w image) ;;;
             ret (convert_RGBA image)
           else ret image) ;;
  grid_image <~ draw_grid (fonts w) rgba (spacing args) (color args)
                  (opacity args) (thickness args) ;;
  (if String.eqb (mode image) "RGBA" then lift (Image_load w image)
   else ret tt) ;;;
  emit (Log INFO ("Saving grid image to: " ++ out)) ;;;
  lift (Image_save w grid_image out) ;;;
  emit (Saved out grid_image) ;;;
  emit (PrintOut ("Successfully created grid overlay: " ++ out)) ;;;
  ret out.

(** [main]: the events of the run and the exit code. *)
Definition main `{Rasterizer} (w : World) (args : Args) : list Event * Z :=
  let started :=
    if debug args then [Log DEBUG "Debug mode enabled"] else [] in
  match main_try w args with
  | (ev, Ok _) => (started ++ ev, 0)
  | (ev, Raise e) =>
      match exc_class e with
      | FileNotFoundError
      | ValueError =>
          (started ++ ev ++ [ Log ERROR (exc_msg e);
                              PrintErr ("Error: " ++ exc_msg e) ], 1)
      | _ =>
          (started ++ ev ++ [ Log ERROR ("Unexpected error: " ++ exc_msg e);
                              PrintErr ("Unexpected error: " ++ exc_msg e) ], 1)
      end
  end.

(** The drawing calls a run of [draw_grid] makes on its overlay. *)
Definition draw_grid_cmds (fs : Fonts) (image : Image)
    (spacing : Z) (color : Z * Z * Z) (opacity thickness : Z)
  : Result (list DrawCmd) :=
  match load_font fs (font_size spacing) with
  | (_, Ok font) =>
      grid_cmds font (fst (size image)) (snd (size image)) spacing
        (color, opacity) thickness
  | (_, Raise e) => Raise e
  end.

(** The calls of one labelled grid line: the line, the background of its
    label (the text's box padded by 2 pixels, near-white of alpha 200),
    then the text in opaque black. *)
Definition label_group (l : list DrawCmd) : Prop :=
  exists a b gc th xy text font,
    l = [ Line a b gc th;
          Rectangle (bg_box (textbbox xy text font)) (255, 255, 255, 200);
          Text xy text (0, 0, 0, 255) font ].

(* ------------------------------------------------------------------ *)
(** ** Names for parts of a run *)

(** The one warning [draw_grid] can log. *)
Definition font_warning : Event :=
  Log WARNING "Could not load a TrueType font, using default font".

(** The events of [draw_grid]: that warning and lines of information. *)
Definition grid_event (e : Event) : Prop :=
  e = font_warning \/ exists msg, e = Log INFO msg.

(** [main] hands [draw_grid] an RGBA image: the one it opened, converted
    if need be. *)
Definition as_rgba (image : Image) : Image :=
  if negb (String.eqb (mode image) "RGBA") then convert_RGBA image else image.

(** What the handlers of [main] log and print for an exception. *)
Definition handler_events (e : Exc) : list Event :=
  match exc_class e with
  | FileNotFoundError | ValueError =>
      [ Log ERROR (exc_msg e); PrintErr ("Error: " ++ exc_msg e) ]
  | _ =>
      [ Log ERROR ("Unexpected error: " ++ exc_msg e);
        PrintErr ("Unexpected error: " ++ exc_msg e) ]
  end.

(** What [main] logs first under [--debug]. *)
Definition debug_banner (args : Args) : list Event :=
  if debug args then [Log DEBUG "Debug mode enabled"] else [].

(** A channel of [alpha_composite_px] under an opaque source: the
    coefficients are then 32640 and 0. *)
Definition chan_opaque (s : Z) : Z :=
  Z.shiftr (SHIFTFORDIV255 (s * 32640 + 16384)) 7.

(** The warning of [main] about an opacity out of range. *)
Definition opacity_warning (args : Args) : Event :=
  Log WARNING ("Invalid opacity value: " ++ string_of_int (opacity args)
               ++ ". Using default: 128").

(* ------------------------------------------------------------------ *)
(** ** A reference rasteriser, font and machine, for concrete runs *)

Module Ref.

(** A band of [w] pixels (one when [w <= 1]) centred on [c]. *)
Definition band (c w v : Z) : bool :=
  let w := Z.max w 1 in (c - w / 2 <=? v) && (v <=? c + (w - 1) / 2).

Definition between (a b v : Z) : bool :=
  (Z.min a b <=? v) && (v <=? Z.max a b).

(** Axis-parallel strokes, the only ones the program draws. *)
Definition ref_stroke (a b : Point) (w : Z) (p : Point) : bool :=
  if snd a =? snd b then between (fst a) (fst b) (fst p) && band (snd a) w (snd p)
  else if fst a =? fst b then band (fst a) w (fst p) && between (snd a) (snd b) (snd p)
  else false.

Definition mix (m old ink : Z) : Z := (old * (255 - m) + ink * m) / 255.

Definition ref_blend (m : Z) (old ink : RGBA) : RGBA :=
  mkRGBA (mix m (red old) (red ink)) (mix m (green old) (green ink))
         (mix m (blue old) (blue ink)) (mix m (alpha old) (alpha ink)).

#[export] Instance ref_raster : Rasterizer :=
  {| stroke := ref_stroke; blend := ref_blend |}.

(** A fixed-pitch font of 6 x 11 cells whose glyphs are solid 5 x 9
    blocks. *)
Definition cell_bbox (s : str) : Box := (0, 0, 6 * Z.of_nat (List.length s), 11).

Definition cell_coverage (s : str) (p : Point) : Z :=
  if (0 <=? fst p) && (fst p <? 6 * Z.of_nat (List.length s))
     && (fst p mod 6 <? 5) && (1 <=? snd p) && (snd p <? 10)
  then 255 else 0.

Definition cell_font : Font.
Proof.
  refine (mkFont cell_bbox cell_coverage _ _).
  - intros s. unfold cell_bbox. lia.
  - intros s p. unfold cell_bbox, cell_coverage.
    destruct (0 <=? fst p) eqn:E1; [| intros C; now elim C].
    destruct (fst p <? 6 * Z.of_nat (List.length s)) eqn:E2; [| intros C; now elim C].
    destruct (fst p mod 6 <? 5); [| intros C; now elim C].
    destruct (1 <=? snd p) eqn:E3; [| intros C; now elim C].
    destruct (snd p <? 10) eqn:E4; [| intros C; now elim C].
    intros _. lia.
Defined.

(** A machine with no TrueType font. *)
Definition no_truetype : Fonts := mkFonts (fun _ _ => None) cell_font.

(** A [w] x [h] image of one colour. *)
Definition solid (w h : Z) (c : RGBA) : Image :=
  mkImage "PNG" "RGBA" (w, h) (fun _ => c).

Definition black : RGBA := mkRGBA 0 0 0 255.

(** A machine whose only file is [photo.png], a 30 x 30 black image, and
    on which saving succeeds. *)
Definition photo_world : World :=
  mkWorld (fun path => String.eqb path "photo.png")
          (fun path => path)
          (fun _ => ("photo", ".png")%string)
          (fun path => if String.eqb path "photo.png"
                       then Ok (solid 30 30 black)
                       else Raise (mkExc OSError "cannot identify image file"))
          (fun _ => Ok tt)
          no_truetype
          (fun _ _ => Ok tt).

(** The same machine, but [photo.png] is cut short: it opens, and its
    pixel data cannot be decoded. *)
Definition truncated_world : World :=
  mkWorld (os_path_exists photo_world) (os_path_basename photo_world)
          (os_path_splitext photo_world) (Image_open photo_world)
          (fun _ => Raise (mkExc OSError "image file is truncated"))
          (fonts photo_world) (Image_save photo_world).

Definition photo_args (op : Z) : Args :=
  mkArgs "photo.png" 10 (0, 0, 255) op 2 None false.

(** The drawing calls on that image with spacing 10, blue lines of
    opacity [op] and thickness 2. *)
Definition sample_cmds (op : Z) : list DrawCmd :=
  match draw_grid_cmds no_truetype (solid 30 30 black) 10 (0, 0, 255) op 2 with
  | Ok cmds => cmds
  | Raise _ => []
  end.

End Ref.

(* ------------------------------------------------------------------ *)
(** ** More names for parts of a run *)

(** The exceptions of [chr], and of a division by zero. *)
Definition chr_range_error : Exc :=
  mkExc ValueError "chr() arg not in range(0x110000)".

Definition chr_overflow_error : Exc :=
  mkExc OverflowError "Python int too large to convert to C int".

Definition zero_division_error : Exc :=
  mkExc ZeroDivisionError "integer division or modulo by zero".

(** The font files [draw_grid] tries, in order. *)
Definition font_candidates : list string := "Arial.ttf"%string :: system_fonts.

(** The two lines of information [draw_grid] logs before it draws. *)
Definition grid_log (sz : Z * Z) (spacing thickness : Z) : list Event :=
  [ Log INFO ("Creating grid with " ++ string_of_int (snd sz / spacing + 1)
              ++ " rows and " ++ string_of_int (fst sz / spacing + 1)
              ++ " columns");
    Log INFO ("Grid spacing: " ++ string_of_int spacing
              ++ "px, Line thickness: " ++ string_of_int thickness ++ "px") ].

(** The overlay [draw_grid] starts from. *)
Definition blank_overlay (sz : Z * Z) : Image :=
  mkImage "None" "RGBA" sz (fun _ => mkRGBA 0 0 0 0).

(** The number of grid lines on a side of length [d]: the multiples of
    [spacing] from 0 that are below [d]. *)
Definition line_count (d spacing : Z) : Z :=
  d / spacing + (if d mod spacing =? 0 then 0 else 1).

Definition is_line (c : DrawCmd) : bool :=
  match c with Line _ _ _ _ => true | _ => false end.

(** The vertical grid lines of an image of height [Ht] are the calls
    [draw.line([(x, 0), (x, Ht)], ...)], the horizontal ones of an image of
    width [W] the calls [draw.line([(0, y), (W, y)], ...)]. *)
Definition is_vertical_line (Ht : Z) (c : DrawCmd) : bool :=
  match c with
  | Line (x1, y1) (x2, y2) _ _ => (x1 =? x2) && (y1 =? 0) && (y2 =? Ht)
  | _ => false
  end.

Definition is_horizontal_line (W : Z) (c : DrawCmd) : bool :=
  match c with
  | Line (x1, y1) (x2, y2) _ _ => (y1 =? y2) && (x1 =? 0) && (x2 =? W)
  | _ => false
  end.

(** [args.debug = b]. *)
Definition set_debug (args : Args) (b : bool) : Args :=
  mkArgs (input_image args) (spacing args) (color args) (opacity args)
         (thickness args) (output args) b.

(** A record of level DEBUG. *)
Definition is_debug_record (e : Event) : bool :=
  match e with Log DEBUG _ => true | _ => false end.

(** The path [main] saves to: [--output], or the input's base name with
    [_grid.png]. *)
Definition output_path (w : World) (args : Args) : string :=
  match output args with
  | Some out => out
  | None =>
      fst (os_path_splitext w (os_path_basename w (input_image args)))
      ++ "_grid.png"
  end.

(** A record of the log. *)
Definition is_log (e : Event) : bool :=
  match e with Log _ _ => true | _ => false end.

(** The opacity [main] hands on: the one given, or 128 when that is out
    of range. *)
Definition checked_opacity (args : Args) : Z :=
  if (0 <=? opacity args) && (opacity args <=? 255) then opacity args else 128.

(** Where the image opened is decoded: by the [image.convert('RGBA')] of
    [main] (line 226) when it is not RGBA, else by the
    [image.convert("RGBA")] of [draw_grid] (line 186). *)
Definition decode_in_main (w : World) (image : Image) : Result unit :=
  if negb (String.eqb (mode image) "RGBA") then Image_load w image else Ok tt.

Definition decode_in_draw_grid (w : World) (image : Image) : Result unit :=
  if String.eqb (mode image) "RGBA" then Image_load w image else Ok tt.

(** What [main] logs from the opening of the image up to the call of
    [draw_grid]. *)
Definition prelude (w : World) (args : Args) (image : Image) : list Event :=
  [Log INFO ("Opening image: " ++ input_image args)]
  ++ (if debug args
      then [Log DEBUG ("Image format: " ++ im_format image ++ ", Size: "
                       ++ repr_size (size image) ++ ", Mode: " ++ mode image)]
      else [])
  ++ (if (0 <=? opacity args) && (opacity args <=? 255) then []
      else [opacity_warning args])
  ++ (match output args with
      | Some _ => []
      | None => if debug args
                then [Log DEBUG ("Using default output name: "
                                 ++ output_path w args)]
                else []
      end)
  ++ (if negb (String.eqb (mode image) "RGBA") && debug args
      then [Log DEBUG ("Converting image from " ++ mode image ++ " to RGBA")]
      else []).

(** Two argument sets that differ in [debug] at most. *)
Definition same_but_debug (a1 a2 : Args) : Prop :=
  input_image a1 = input_image a2 /\ spacing a1 = spacing a2 /\
  color a1 = color a2 /\ opacity a1 = opacity a2 /\
  thickness a1 = thickness a2 /\ output a1 = output a2.

(** The order of labels: shorter first, and among labels of one length
    by code point from the left. *)
Fixpoint lex_lt (s t : str) : Prop :=
  match s, t with
  | a :: s', b :: t' => a < b \/ (a = b /\ lex_lt s' t')
  | _, _ => False
  end.

Definition label_lt (s t : str) : Prop :=
  (List.length s < List.length t)%nat \/
  (List.length s = List.length t /\ lex_lt s t).

(* ================================================================== *)
(** * Properties *)

(** ** Column labels *)

Lemma chr_ok (i : Z) : 0 <= i < 1114112 -> chr i = Ok [i].
Proof.
  intros Hi. unfold chr.
  destruct (0 <=? i) eqn:E1; [| lia].
  destruct (i <? 1114112) eqn:E2; [reflexivity | lia].
Qed.

Lemma chr_ok_inv (i : Z) (s : str) :
  chr i = Ok s -> s = [i] /\ 0 <= i < 1114112.
Proof.
  unfold chr. destruct ((0 <=? i) && (i <? 1114112)) eqn:E.
  - intros Hs. apply andb_prop in E as [E1 E2]. split; [congruence | lia].
  - destruct ((-2147483648 <=? i) && (i <=? 2147483647)); discriminate.
Qed.

(** Out of [range(0x110000)] but in a C [int]: [ValueError]. *)
Lemma chr_value_error (i : Z) :
  -2147483648 <= i < 0 \/ 1114112 <= i <= 2147483647 ->
  chr i = Raise (mkExc ValueError "chr() arg not in range(0x110000)").
Proof.
  intros Hi. unfold chr.
  destruct ((0 <=? i) && (i <? 1114112)) eqn:E.
  - apply andb_prop in E as [E1 E2]. lia.
  - destruct ((-2147483648 <=? i) && (i <=? 2147483647)) eqn:E';
      [reflexivity |]. apply andb_false_iff in E'. lia.
Qed.

(** Out of a C [int]: [OverflowError]. *)
Lemma chr_overflow_error_at (i : Z) :
  i < -2147483648 \/ 2147483647 < i ->
  chr i = Raise (mkExc OverflowError "Python int too large to convert to C int").
Proof.
  intros Hi. unfold chr.
  destruct ((0 <=? i) && (i <? 1114112)) eqn:E.
  - apply andb_prop in E as [E1 E2]. lia.
  - destruct ((-2147483648 <=? i) && (i <=? 2147483647)) eqn:E';
      [| reflexivity]. apply andb_prop in E' as [E1 E2]. lia.
Qed.

Lemma chr_raises (i : Z) : i < 0 \/ 1114112 <= i -> raises (chr i).
Proof.
  intros Hi. unfold raises.
  destruct (Z_lt_le_dec i (-2147483648)) as [Hl | Hl];
    [rewrite chr_overflow_error_at by lia; eauto |].
  destruct (Z_lt_le_dec 2147483647 i) as [Hh | Hh];
    [rewrite chr_overflow_error_at by lia; eauto |].
  rewrite chr_value_error by lia. eauto.
Qed.

(** The letter at position [p] of the alphabet is [chr(65 + p)]. *)
Lemma letter_at_chr (p : Z) : 0 <= p < 26 -> letter_at p = Some (65 + p).
Proof.
  intros Hp. unfold letter_at.
  destruct (p <? 0) eqn:E; [lia |].
  assert (Hn : (Z.to_nat p < 26)%nat) by lia.
  replace (65 + p) with (65 + Z.of_nat (Z.to_nat p)) by lia.
  generalize dependent (Z.to_nat p). intros n Hn.
  do 26 (destruct n as [| n]; [reflexivity |]). lia.
Qed.

Lemma letter_at_is_upper (p c : Z) : letter_at p = Some c -> is_upper c = true.
Proof.
  unfold letter_at. destruct (p <? 0); [discriminate |].
  intros Hc. apply nth_error_In in Hc.
  unfold alphabet in Hc. simpl in Hc.
  unfold is_upper. repeat (destruct Hc as [<- | Hc]; [reflexivity |]).
  contradiction.
Qed.

Lemma is_upper_iff (c : Z) : is_upper c = true <-> 65 <= c <= 90.
Proof. unfold is_upper. rewrite andb_true_iff, !Z.leb_le. tauto. Qed.

(** The label of an index below 26. *)
Lemma label_one (index : Z) :
  0 <= index < 26 -> get_column_label index = Ok [65 + index].
Proof.
  intros Hi. unfold get_column_label.
  destruct (index <? 26) eqn:E; [| lia].
  apply chr_ok. lia.
Qed.

(** The label of an index from 26 up to [label_limit]. *)
Lemma label_two (index : Z) :
  26 <= index < label_limit ->
  get_column_label index = Ok [65 + index / 26 - 1; 65 + index mod 26].
Proof.
  unfold label_limit. intros Hi. unfold get_column_label.
  destruct (index <? 26) eqn:E; [lia |].
  pose proof (Z.mod_pos_bound index 26 ltac:(lia)) as Hr.
  assert (Hq : 1 <= index / 26 < 1114048).
  { split.
    - apply Z.div_le_lower_bound; lia.
    - apply Z.div_lt_upper_bound; lia. }
  rewrite (chr_ok (65 + index / 26 - 1)) by lia.
  rewrite (chr_ok (65 + index mod 26)) by lia.
  reflexivity.
Qed.

(** From [label_limit] up to [label_overflow_limit]: the [ValueError] of
    the first [chr]. *)
Lemma label_value_error (index : Z) :
  label_limit <= index < label_overflow_limit ->
  get_column_label index = Raise chr_range_error.
Proof.
  unfold label_limit, label_overflow_limit. intros Hi. unfold get_column_label.
  destruct (index <? 26) eqn:E; [lia |].
  assert (Hq : 1114048 <= index / 26 < 2147483584).
  { split.
    - apply Z.div_le_lower_bound; lia.
    - apply Z.div_lt_upper_bound; lia. }
  rewrite (chr_value_error (65 + index / 26 - 1)) by lia. reflexivity.
Qed.

(** From [label_overflow_limit] on: the [OverflowError] of the first
    [chr]. *)
Lemma label_overflow_error (index : Z) :
  label_overflow_limit <= index ->
  get_column_label index = Raise chr_overflow_error.
Proof.
  unfold label_overflow_limit. intros Hi. unfold get_column_label.
  destruct (index <? 26) eqn:E; [lia |].
  assert (Hq : 2147483584 <= index / 26)
    by (apply Z.div_le_lower_bound; lia).
  rewrite (chr_overflow_error_at (65 + index / 26 - 1)) by lia. reflexivity.
Qed.

(** No label from [label_limit] on. *)
Lemma label_none (index : Z) :
  label_limit <= index -> raises (get_column_label index).
Proof.
  intros Hi. unfold raises.
  destruct (Z_lt_le_dec index label_overflow_limit) as [Hl | Hl].
  - rewrite label_value_error by lia. eauto.
  - rewrite label_overflow_error by lia. eauto.
Qed.

(** C1: the code meets the claim below index 702, where the label is the
    one the specification builds from the letters of the alphabet (one
    letter below 26, else the letters at positions [index div 26 - 1] and
    [index mod 26]), the seven labels of the specification among them.
    From 702 on it fails the claim and its own docstring ("Alphabetic
    label"): at 702 it returns '[' then 'A', and up to 28965248 a first
    character past 'Z' where the alphabet has no letter; from 28965248 it
    raises [ValueError], and from 55834573184 [OverflowError], instead of
    returning a label. *)
Theorem get_column_label_formula :
  (forall index, 0 <= index < 702 ->
     exists s, spec_label index = Some s /\ get_column_label index = Ok s) /\
  (get_column_label 0 = Ok (lit "A") /\
   get_column_label 25 = Ok (lit "Z") /\
   get_column_label 26 = Ok (lit "AA") /\
   get_column_label 51 = Ok (lit "AZ") /\
   get_column_label 52 = Ok (lit "BA") /\
   get_column_label 77 = Ok (lit "BZ") /\
   get_column_label 78 = Ok (lit "CA")) /\
  (get_column_label 702 = Ok (lit "[A") /\ spec_label 702 = None /\
   is_upper (ord "["%char) = false) /\
  (forall index, 702 <= index < label_limit ->
     exists c2, letter_at (index mod 26) = Some c2 /\
                get_column_label index = Ok [65 + index / 26 - 1; c2] /\
                is_upper (65 + index / 26 - 1) = false /\
                spec_label index = None) /\
  (forall index, label_limit <= index < label_overflow_limit ->
     get_column_label index = Raise chr_range_error) /\
  (forall index, label_overflow_limit <= index ->
     get_column_label index = Raise chr_overflow_error).
Proof.
  split; [| split; [repeat split; reflexivity |
            split; [repeat split; reflexivity |
            split; [| split; [exact label_value_error
                             | exact label_overflow_error]]]]].
  - intros index Hi. unfold spec_label.
    destruct (index <? 26) eqn:E.
    + rewrite letter_at_chr by lia. exists [65 + index].
      split; [reflexivity | apply label_one; lia].
    + pose proof (Z.mod_pos_bound index 26 ltac:(lia)) as Hr.
      assert (Hq : 1 <= index / 26 < 27).
      { split.
        - apply Z.div_le_lower_bound; lia.
        - apply Z.div_lt_upper_bound; lia. }
      rewrite (letter_at_chr (index / 26 - 1)) by lia.
      rewrite (letter_at_chr (index mod 26)) by lia.
      exists [65 + (index / 26 - 1); 65 + index mod 26]. split; [reflexivity |].
      replace (65 + (index / 26 - 1)) with (65 + index / 26 - 1) by lia.
      apply label_two. unfold label_limit. lia.
  - intros index Hi.
    pose proof (Z.mod_pos_bound index 26 ltac:(lia)) as Hr.
    assert (Hq : 27 <= index / 26) by (apply Z.div_le_lower_bound; lia).
    exists (65 + index mod 26). split; [apply letter_at_chr; lia |].
    split; [apply label_two; lia |]. split.
    + apply not_true_is_false. rewrite is_upper_iff. lia.
    + unfold spec_label. destruct (index <? 26) eqn:E; [lia |].
      assert (Hnone : letter_at (index / 26 - 1) = None).
      { unfold letter_at. destruct (index / 26 - 1 <? 0) eqn:E'; [lia |].
        apply nth_error_None. change (List.length alphabet) with 26%nat. lia. }
      now rewrite Hnone.
Qed.

(** C5: two distinct indices never have the same label. *)
Theorem get_column_label_injective (i j : Z) (s t : str) :
  0 <= i -> 0 <= j -> i <> j ->
  get_column_label i = Ok s -> get_column_label j = Ok t -> s <> t.
Proof.
  intros Hi Hj Hij Hs Ht Heq. subst t.
  assert (label_shape : forall k, 0 <= k -> forall u, get_column_label k = Ok u ->
            (k < 26 /\ u = [65 + k]) \/
            (26 <= k /\ u = [65 + k / 26 - 1; 65 + k mod 26])).
  { intros k Hk u Hu.
    destruct (Z_lt_le_dec k 26) as [Hlt | Hge].
    - left. rewrite label_one in Hu by lia. split; [lia | congruence].
    - right. destruct (Z_lt_le_dec k label_limit) as [Hl | Hl].
      + rewrite label_two in Hu by lia. split; [lia | congruence].
      + destruct (label_none k Hl) as [e He]. congruence. }
  destruct (label_shape i Hi s Hs) as [[Hi1 Es] | [Hi1 Es]];
    destruct (label_shape j Hj s Ht) as [[Hj1 Es'] | [Hj1 Es']];
    rewrite Es in Es'; try discriminate Es'.
  - assert (E : 65 + i = 65 + j) by congruence. lia.
  - assert (E1 : 65 + i / 26 - 1 = 65 + j / 26 - 1) by congruence.
    assert (E2 : 65 + i mod 26 = 65 + j mod 26) by congruence.
    pose proof (Z.div_mod i 26 ltac:(lia)).
    pose proof (Z.div_mod j 26 ltac:(lia)).
    lia.
Qed.

(** Indices 25 and 26: "Z" and "AA". *)
Lemma get_column_label_injective_witness :
  get_column_label 25 = Ok (lit "Z") /\
  get_column_label 26 = Ok (lit "AA") /\
  lit "Z" <> lit "AA".
Proof.
  split; [reflexivity |]. split; [reflexivity |].
  apply (get_column_label_injective 25 26); [lia | lia | lia | reflexivity | reflexivity].
Defined.

(** C10, as stated, fails: far enough past 702 there is no label to
    contain a character. *)
Lemma get_column_label_no_label_far_out :
  702 <= 30000000 /\ ~ (exists s, get_column_label 30000000 = Ok s).
Proof.
  split; [lia |]. intros [s Hs]. vm_compute in Hs. discriminate Hs.
Qed.

(** C10 (amended): from 26 up to 702 the label is two letters of 'A'..'Z';
    from 702 up to 28965248 its first character, of code point
    [65 + index div 26 - 1], is past 'Z'; from 28965248 up to 55834573184
    there is no label, the call raises [ValueError], and from 55834573184
    on it raises [OverflowError].  So a label is alphabetic exactly below
    702. *)
Theorem get_column_label_alphabetic :
  (forall index, 26 <= index < 702 ->
     exists c1 c2, get_column_label index = Ok [c1; c2] /\
                   is_upper c1 = true /\ is_upper c2 = true) /\
  (forall index, 702 <= index < label_limit ->
     exists c1 c2, get_column_label index = Ok [c1; c2] /\
                   c1 = 65 + index / 26 - 1 /\ 90 < c1 /\
                   is_upper c1 = false) /\
  (forall index, label_limit <= index < label_overflow_limit ->
     get_column_label index
     = Raise (mkExc ValueError "chr() arg not in range(0x110000)")) /\
  (forall index, label_overflow_limit <= index ->
     get_column_label index
     = Raise (mkExc OverflowError "Python int too large to convert to C int")) /\
  (forall index s, 0 <= index -> get_column_label index = Ok s ->
     (forallb is_upper s = true <-> index < 702)).
Proof.
  assert (Hdiv : forall index, 26 <= index ->
            (index < 702 -> 1 <= index / 26 < 27) /\
            (702 <= index -> 27 <= index / 26)).
  { intros index Hi. split; intros Hb.
    - split; [apply Z.div_le_lower_bound | apply Z.div_lt_upper_bound]; lia.
    - apply Z.div_le_lower_bound; lia. }
  split; [| split; [| split; [exact label_value_error | split]]].
  - intros index Hi.
    pose proof (Z.mod_pos_bound index 26 ltac:(lia)) as Hr.
    destruct (Hdiv index ltac:(lia)) as [Hq _]. specialize (Hq ltac:(lia)).
    exists (65 + index / 26 - 1), (65 + index mod 26).
    split; [apply label_two; unfold label_limit; lia |].
    rewrite !is_upper_iff. lia.
  - intros index Hi.
    destruct (Hdiv index ltac:(lia)) as [_ Hq]. specialize (Hq ltac:(lia)).
    exists (65 + index / 26 - 1), (65 + index mod 26).
    split; [apply label_two; lia |]. split; [reflexivity |]. split; [lia |].
    apply not_true_is_false. rewrite is_upper_iff. lia.
  - exact label_overflow_error.
  - intros index s Hi Hs.
    destruct (Z_lt_le_dec index 26) as [Hlt | Hge].
    + rewrite label_one in Hs by lia.
      assert (Es : s = [65 + index]) by congruence. subst s.
      cbn [forallb]. rewrite andb_true_r, is_upper_iff. lia.
    + destruct (Z_lt_le_dec index label_limit) as [Hl | Hl].
      2:{ destruct (label_none index Hl) as [e He]. congruence. }
      rewrite label_two in Hs by lia.
      assert (Es : s = [65 + index / 26 - 1; 65 + index mod 26]) by congruence.
      subst s.
      pose proof (Z.mod_pos_bound index 26 ltac:(lia)) as Hr.
      destruct (Hdiv index Hge) as [Hq1 Hq2].
      cbn [forallb]. rewrite andb_true_r, andb_true_iff, !is_upper_iff.
      split.
      * intros Hu. destruct (Z_lt_le_dec index 702) as [? | Hbig]; [assumption |].
        specialize (Hq2 Hbig). lia.
      * intros Hsmall. specialize (Hq1 Hsmall). lia.
Qed.

(** Index 701 ("ZZ"), index 702 ('[' then 'A'), index 28965248
    ([ValueError]), index 55834573184 ([OverflowError]), and that a label
    of letters such as "AB" has an index below 702. *)
Lemma get_column_label_alphabetic_witness :
  (exists c1 c2, get_column_label 701 = Ok [c1; c2] /\
                 is_upper c1 = true /\ is_upper c2 = true) /\
  (exists c1 c2, get_column_label 702 = Ok [c1; c2] /\
                 c1 = 65 + 702 / 26 - 1 /\ 90 < c1 /\ is_upper c1 = false) /\
  get_column_label 28965248
  = Raise (mkExc ValueError "chr() arg not in range(0x110000)") /\
  get_column_label 55834573184
  = Raise (mkExc OverflowError "Python int too large to convert to C int") /\
  (forallb is_upper (lit "AB") = true <-> 27 < 702).
Proof.
  pose proof get_column_label_alphabetic as (H1 & H2 & H3 & H4 & H5).
  split; [| split; [| split; [| split]]].
  - apply (H1 701). lia.
  - apply (H2 702). unfold label_limit. lia.
  - apply (H3 28965248). unfold label_limit, label_overflow_limit. lia.
  - apply (H4 55834573184). unfold label_overflow_limit. lia.
  - apply (H5 27 (lit "AB")); [lia | reflexivity].
Defined.

(** ** Loops, results and traces *)

Lemma range_In (n i : Z) : In i (range n) <-> 0 <= i < n.
Proof.
  unfold range. rewrite in_map_iff. split.
  - intros [k [<- Hk]]. apply in_seq in Hk. lia.
  - intros Hi. exists (Z.to_nat i). split; [lia |]. apply in_seq. lia.
Qed.

Lemma bind_ok_inv {A B} (m : Result A) (k : A -> Result B) (b : B) :
  bind m k = Ok b -> exists a, m = Ok a /\ k a = Ok b.
Proof. destruct m as [a | e]; simpl; [eauto | discriminate]. Qed.

Lemma bindM_ok_inv {A B} (m : M A) (k : A -> M B) (ev : list Event) (b : B) :
  bindM m k = (ev, Ok b) ->
  exists ev1 a ev2, m = (ev1, Ok a) /\ k a = (ev2, Ok b) /\ ev = ev1 ++ ev2.
Proof.
  destruct m as [ev1 [a | e]]; simpl; [| discriminate].
  destruct (k a) as [ev2 r] eqn:Hk. intros Heq.
  injection Heq as <- ->. exists ev1, a, ev2. auto.
Qed.

(** A loop that ends normally: every turn did, and the calls are the
    turns' calls in order. *)
Lemma for_each_ok_inv {A B} (body : A -> Result (list B)) (xs : list A)
    (l : list B) :
  for_each xs body = Ok l ->
  exists ls, Forall2 (fun x c => body x = Ok c) xs ls /\ l = List.concat ls.
Proof.
  revert l. induction xs as [| x xs IH]; simpl; intros l Hl.
  - exists []. split; [apply Forall2_nil | simpl; congruence].
  - apply bind_ok_inv in Hl as [c [Hc Hl]].
    apply bind_ok_inv in Hl as [cs [Hcs Hl]].
    destruct (IH cs Hcs) as [ls [Hls ->]].
    exists (c :: ls). split; [apply Forall2_cons; assumption | simpl; congruence].
Qed.

Lemma for_each_ok_intro {A B} (body : A -> Result (list B)) (xs : list A) :
  (forall x, In x xs -> exists c, body x = Ok c) ->
  exists l, for_each xs body = Ok l.
Proof.
  induction xs as [| x xs IH]; simpl; intros Hall.
  - eauto.
  - destruct (Hall x (or_introl eq_refl)) as [c ->].
    destruct IH as [cs ->]; [intros y Hy; apply Hall; now right |].
    simpl. eauto.
Qed.

Lemma for_each_In {A B} (body : A -> Result (list B)) (xs : list A)
    (l : list B) :
  for_each xs body = Ok l ->
  forall b, In b l <-> exists x c, In x xs /\ body x = Ok c /\ In b c.
Proof.
  intros Hl. apply for_each_ok_inv in Hl as [ls [Hls ->]].
  induction Hls as [| x c xs ls Hc Hls IH]; simpl; intros b.
  - split; [contradiction | intros (x & c & [] & _)].
  - rewrite in_app_iff, IH. split.
    + intros [Hb | (y & d & Hy & Hd & Hb)].
      * exists x, c. auto.
      * exists y, d. auto.
    + intros (y & d & [<- | Hy] & Hd & Hb).
      * left. congruence.
      * right. exists y, d. auto.
Qed.

Lemma try_fonts_ok (fs : Fonts) (paths : list string) (n : Z) :
  exists ev font, try_fonts fs paths n = (ev, Ok font).
Proof.
  induction paths as [| p paths IH]; simpl.
  - eauto.
  - destruct (truetype fs p n); [unfold ret; eauto | exact IH].
Qed.

(** Some font is always found. *)
Lemma load_font_ok (fs : Fonts) (n : Z) :
  exists ev font, load_font fs n = (ev, Ok font).
Proof.
  unfold load_font.
  destruct (truetype fs "Arial.ttf" n); [unfold ret; eauto |].
  apply try_fonts_ok.
Qed.

(** ** The overlay, pixel by pixel *)

Section Pixels.
Context `{Rasterizer}.

Lemma exec_size (im : Image) (c : DrawCmd) : size (exec im c) = size im.
Proof. destruct c; reflexivity. Qed.

Lemma exec_mode (im : Image) (c : DrawCmd) : mode (exec im c) = mode im.
Proof. destruct c; reflexivity. Qed.

Lemma fold_exec_size (cmds : list DrawCmd) (im : Image) :
  size (fold_left exec cmds im) = size im.
Proof.
  revert im. induction cmds as [| c cmds IH]; simpl; intros im;
    [reflexivity | now rewrite IH, exec_size].
Qed.

Lemma fold_exec_mode (cmds : list DrawCmd) (im : Image) :
  mode (fold_left exec cmds im) = mode im.
Proof.
  revert im. induction cmds as [| c cmds IH]; simpl; intros im;
    [reflexivity | now rewrite IH, exec_mode].
Qed.

Lemma exec_in_bounds (im : Image) (c : DrawCmd) (p : Point) :
  in_bounds (exec im c) p = in_bounds im p.
Proof. unfold in_bounds. now rewrite exec_size. Qed.

(** A call leaves alone the pixels it does not touch. *)
Lemma exec_untouched (im : Image) (c : DrawCmd) (p : Point) :
  touches c p = false -> getpixel (exec im c) p = getpixel im p.
Proof.
  destruct c; simpl; intros Hp; rewrite Hp, andb_false_r; reflexivity.
Qed.

Lemma fold_exec_untouched (cmds : list DrawCmd) (im : Image) (p : Point) :
  (forall c, In c cmds -> touches c p = false) ->
  getpixel (fold_left exec cmds im) p = getpixel im p.
Proof.
  revert im. induction cmds as [| c cmds IH]; simpl; intros im Hall.
  - reflexivity.
  - rewrite IH by auto. apply exec_untouched. auto.
Qed.

(** A line sets the pixels of its stroke to its ink. *)
Lemma exec_line (im : Image) (a b : Point) (fill : Color) (w : Z) (p : Point) :
  in_bounds im p = true -> stroke a b w p = true ->
  getpixel (exec im (Line a b fill w)) p = getink fill.
Proof. simpl. intros -> ->. reflexivity. Qed.

(** A rectangle sets the pixels of its box to its ink. *)
Lemma exec_rectangle (im : Image) (box : Box) (fill : Color) (p : Point) :
  in_bounds im p = true -> in_box box p = true ->
  getpixel (exec im (Rectangle box fill)) p = getink fill.
Proof. simpl. intros -> ->. reflexivity. Qed.

(** What a call touches lies in its region. *)
Lemma touches_region (c : DrawCmd) (p : Point) :
  touches c p = true -> region c p = true.
Proof.
  destruct c as [a b fill w | box fill | xy text fill font]; simpl; auto.
  intros Hg. apply negb_true_iff, Z.eqb_neq in Hg.
  unfold glyph_at in Hg. apply coverage_in_bbox in Hg.
  unfold textbbox, in_textbox.
  destruct (getbbox font text) as [[[x0 y0] x1] y1]. simpl in Hg |- *.
  repeat (apply andb_true_intro; split);
    try apply Z.leb_le; try apply Z.ltb_lt; lia.
Qed.

(** The last call that touches a pixel, when it is a line, decides it. *)
Lemma fold_exec_top_line (before after : list DrawCmd) (im : Image)
    (a b : Point) (fill : Color) (w : Z) (p : Point) :
  in_bounds im p = true -> stroke a b w p = true ->
  (forall c, In c after -> touches c p = false) ->
  getpixel (fold_left exec (before ++ Line a b fill w :: after) im) p
  = getink fill.
Proof.
  intros Hb Hs Hafter. rewrite fold_left_app. simpl.
  rewrite fold_exec_untouched by assumption.
  apply exec_line; [| assumption].
  unfold in_bounds. rewrite fold_exec_size. exact Hb.
Qed.

End Pixels.

(** ** Compositing *)

Lemma alpha_composite_px_transparent (dst src : RGBA) :
  alpha src = 0 -> alpha_composite_px dst src = dst.
Proof. intros Ha. unfold alpha_composite_px. now rewrite Ha. Qed.

Lemma chan_opaque_id (s : Z) : 0 <= s <= 255 -> chan_opaque s = s.
Proof.
  intros Hs. unfold chan_opaque, SHIFTFORDIV255.
  rewrite !Z.shiftr_div_pow2 by lia.
  change (2 ^ 8) with 256. change (2 ^ 7) with 128.
  assert (Hk : exists k, 0 <= k < 256 /\ s = k) by (exists s; lia).
  destruct Hk as [k [Hk ->]].
  assert (Hn : (Z.to_nat k < 256)%nat) by lia.
  rewrite <- (Z2Nat.id k) by lia.
  generalize dependent (Z.to_nat k). clear. intros n Hn.
  do 256 (destruct n as [| n]; [reflexivity |]). lia.
Qed.

(** An opaque source pixel replaces the pixel under it. *)
Lemma alpha_composite_px_opaque (dst src : RGBA) :
  alpha src = 255 ->
  valid_channel (red src) -> valid_channel (green src) ->
  valid_channel (blue src) ->
  alpha_composite_px dst src = src.
Proof.
  unfold valid_channel. intros Ha Hr Hg Hb.
  destruct src as [r g b a]. cbn [alpha red green blue] in *. subst a.
  unfold alpha_composite_px. cbn [alpha red green blue].
  change (255 =? 0) with false. cbv iota.
  replace (alpha dst * (255 - 255)) with 0 by lia.
  change (255 * 255 + 0) with 65025.
  change (255 * 255 * 255 * Z.shiftl 1 PRECISION_BITS / 65025) with 32640.
  change (255 * Z.shiftl 1 PRECISION_BITS - 32640) with 0.
  change (Z.shiftl 128 PRECISION_BITS) with 16384.
  change (SHIFTFORDIV255 (65025 + 128)) with 255.
  change PRECISION_BITS with 7.
  replace (r * 32640 + red dst * 0 + 16384) with (r * 32640 + 16384) by lia.
  replace (g * 32640 + green dst * 0 + 16384) with (g * 32640 + 16384) by lia.
  replace (b * 32640 + blue dst * 0 + 16384) with (b * 32640 + 16384) by lia.
  fold (chan_opaque r). fold (chan_opaque g). fold (chan_opaque b).
  rewrite !chan_opaque_id by assumption. reflexivity.
Qed.

Lemma CLIP8_valid (v : Z) : valid_channel (CLIP8 v).
Proof.
  unfold valid_channel, CLIP8.
  destruct (v <? 0) eqn:E1; [lia |]. destruct (255 <? v) eqn:E2; lia.
Qed.

Lemma CLIP8_id (v : Z) : valid_channel v -> CLIP8 v = v.
Proof.
  unfold valid_channel, CLIP8. intros Hv.
  destruct (v <? 0) eqn:E1; [lia |]. destruct (255 <? v) eqn:E2; lia.
Qed.

(** ** [draw_grid], taken apart *)

Section Grid.
Context `{Rasterizer}.

(** A run of [draw_grid] that returns: the overlay was made, the drawing
    calls all went through, and the result is the composite. *)
Lemma draw_grid_ok_inv (fs : Fonts) (image : Image) (S : Z)
    (color : Z * Z * Z) (op th : Z) (ev : list Event) (result : Image) :
  draw_grid fs image S color op th = (ev, Ok result) ->
  exists overlay cmds,
    Image_new "RGBA" (size image) (0, 0, 0, 0) = Ok overlay /\
    draw_grid_cmds fs image S color op th = Ok cmds /\
    alpha_composite (convert_RGBA image) (fold_left exec cmds overlay)
    = Ok result.
Proof.
  unfold draw_grid, draw_grid_cmds, grid_cmds.
  destruct (size image) as [W Ht] eqn:Hsz. cbn [fst snd].
  intros Hrun.
  apply bindM_ok_inv in Hrun as (ev1 & overlay & ev2 & Hnew & Hrun & _).
  apply bindM_ok_inv in Hrun as (ev3 & font & ev4 & Hfont & Hrun & _).
  apply bindM_ok_inv in Hrun as (ev5 & q_h & ev6 & Hqh & Hrun & _).
  apply bindM_ok_inv in Hrun as (ev7 & q_v & ev8 & Hqv & Hrun & _).
  apply bindM_ok_inv in Hrun as (ev9 & [] & ev10 & _ & Hrun & _).
  apply bindM_ok_inv in Hrun as (ev11 & [] & ev12 & _ & Hrun & _).
  apply bindM_ok_inv in Hrun as (ev13 & rows & ev14 & Hrows & Hrun & _).
  apply bindM_ok_inv in Hrun as (ev15 & cols & ev16 & Hcols & Hrun & _).
  unfold lift in *.
  exists overlay, (rows ++ cols). rewrite Hfont.
  injection Hnew as Hnew. injection Hqh as _ Hqh. injection Hqv as _ Hqv.
  injection Hrows as _ Hrows. injection Hcols as _ Hcols.
  injection Hrun as _ Hrun.
  rewrite Hqh, Hqv. cbn [bind]. rewrite Hrows, Hcols. cbn [bind].
  auto.
Qed.

End Grid.

(** ** The calls of the two loops *)

Section Loops.
Variables (font : Font) (W Ht S : Z) (gc : Color) (th : Z).

(** A turn of the row loop draws nothing at or past the bottom edge, and
    otherwise a line, a label background and a label. *)
Lemma row_cmds_shape (i : Z) (c : list DrawCmd) :
  row_cmds font W Ht S gc th i = Ok c ->
  (Ht <= i * S /\ c = []) \/
  (i * S < Ht /\
   c = [ Line (0, i * S) (W, i * S) gc th;
         Rectangle (bg_box (textbbox (10, i * S + th + 2) (str_of_int (i + 1)) font))
                   (255, 255, 255, 200);
         Text (10, i * S + th + 2) (str_of_int (i + 1)) (0, 0, 0, 255) font ]).
Proof.
  unfold row_cmds. rewrite Z.geb_leb.
  destruct (Ht <=? i * S) eqn:E; intros Hc.
  - left. split; [lia | congruence].
  - right. split; [lia | congruence].
Qed.

Lemma row_cmds_total (i : Z) : exists c, row_cmds font W Ht S gc th i = Ok c.
Proof. unfold row_cmds. destruct (i * S >=? Ht); eauto. Qed.

(** The same for a turn of the column loop, whose label is the column
    label of its index. *)
Lemma col_cmds_shape (i : Z) (c : list DrawCmd) :
  col_cmds font W Ht S gc th i = Ok c ->
  (W <= i * S /\ c = []) \/
  (i * S < W /\ exists col_label,
     get_column_label i = Ok col_label /\
     c = [ Line (i * S, 0) (i * S, Ht) gc th;
           Rectangle (bg_box (textbbox (i * S + th + 2, 10) col_label font))
                     (255, 255, 255, 200);
           Text (i * S + th + 2, 10) col_label (0, 0, 0, 255) font ]).
Proof.
  unfold col_cmds. rewrite Z.geb_leb.
  destruct (W <=? i * S) eqn:E; intros Hc.
  - left. split; [lia | congruence].
  - right. split; [lia |].
    apply bind_ok_inv in Hc as [col_label [Hl Hc]].
    exists col_label. split; [assumption | congruence].
Qed.

Lemma col_cmds_total (i : Z) :
  0 <= i < label_limit -> exists c, col_cmds font W Ht S gc th i = Ok c.
Proof.
  intros Hi. unfold col_cmds. destruct (i * S >=? W); [eauto |].
  destruct (Z_lt_le_dec i 26).
  - rewrite label_one by lia. simpl. eauto.
  - rewrite label_two by lia. simpl. eauto.
Qed.

(** The calls of [draw_grid]: the spacing is not zero, and they are the
    rows' calls then the columns'. *)
Lemma grid_cmds_inv (cmds : list DrawCmd) :
  grid_cmds font W Ht S gc th = Ok cmds ->
  S <> 0 /\
  exists rows cols,
    horizontal_cmds font W Ht S gc th (Ht / S + 1) = Ok rows /\
    vertical_cmds font W Ht S gc th (W / S + 1) = Ok cols /\
    cmds = rows ++ cols.
Proof.
  unfold grid_cmds, floordiv.
  destruct (S =? 0) eqn:E; [discriminate |]. cbn [bind]. intros Hc.
  split; [lia |].
  apply bind_ok_inv in Hc as [rows [Hrows Hc]].
  apply bind_ok_inv in Hc as [cols [Hcols Hc]].
  exists rows, cols. repeat split; congruence.
Qed.

(** Where the spacing is positive and no column index reaches
    [label_limit], the calls all go through. *)
Lemma grid_cmds_total :
  0 < S -> W <= S * label_limit ->
  exists cmds, grid_cmds font W Ht S gc th = Ok cmds.
Proof.
  intros HS HW. unfold grid_cmds, floordiv.
  destruct (S =? 0) eqn:E; [lia |]. cbn [bind].
  destruct (for_each_ok_intro (row_cmds font W Ht S gc th) (range (Ht / S + 1)))
    as [rows Hrows]; [intros i _; apply row_cmds_total |].
  unfold horizontal_cmds. rewrite Hrows. cbn [bind].
  assert (Hcols : exists cols,
            for_each (range (W / S + 1)) (col_cmds font W Ht S gc th) = Ok cols).
  { apply for_each_ok_intro. intros i Hi. apply range_In in Hi.
    destruct (Z_lt_le_dec i label_limit) as [Hl | Hl].
    - apply col_cmds_total. lia.
    - exists []. unfold col_cmds. rewrite Z.geb_leb.
      destruct (W <=? i * S) eqn:E'; [reflexivity |]. nia. }
  destruct Hcols as [cols Hcols].
  unfold vertical_cmds. rewrite Hcols. cbn [bind]. eauto.
Qed.

End Loops.

(** ** Grid lines *)




Lemma sample_cmds_ok (op : Z) :
  draw_grid_cmds Ref.no_truetype (Ref.solid 30 30 Ref.black) 10 (0, 0, 255) op 2
  = Ok (Ref.sample_cmds op).
Proof. reflexivity. Qed.

(** ** Labels (C3) *)

Lemma concat_groups {A} (P : list A -> Prop) (ls : list (list A)) :
  Forall (fun g => g = [] \/ P g) ls ->
  exists gs, List.concat ls = List.concat gs /\ Forall P gs.
Proof.
  induction 1 as [| g ls [-> | Hg] _ (gs & E & Hgs)].
  - exists []. split; [reflexivity | constructor].
  - exists gs. split; [exact E | exact Hgs].
  - exists (g :: gs). split; [simpl; now rewrite E | now constructor].
Qed.

Lemma for_each_groups {A B} (P : list B -> Prop) (body : A -> Result (list B))
    (xs : list A) (l : list B) :
  (forall x c, body x = Ok c -> c = [] \/ P c) ->
  for_each xs body = Ok l ->
  exists gs, l = List.concat gs /\ Forall P gs.
Proof.
  intros Hbody Hl. apply for_each_ok_inv in Hl as (ls & Hls & ->).
  apply concat_groups.
  induction Hls as [| x c xs ls Hc _ IH]; constructor; eauto.
Qed.

(** C3, as stated, fails: the background under the first row label of
    the sample run has alpha 200, not 255. *)
Lemma label_background_not_opaque :
  draw_grid_cmds Ref.no_truetype (Ref.solid 30 30 Ref.black) 10 (0, 0, 255) 255 2
  = Ok (Ref.sample_cmds 255) /\
  In (Rectangle (8, 2, 18, 17) (255, 255, 255, 200)) (Ref.sample_cmds 255) /\
  alpha (getink (255, 255, 255, 200)) = 200 /\
  alpha (getink (255, 255, 255, 200)) <> 255.
Proof.
  split; [reflexivity |].
  split; [right; left; reflexivity |].
  split; [reflexivity | discriminate].
Qed.

(** C3 (amended): the calls of [draw_grid] come in groups of three, one
    per grid line drawn: the line, then a rectangle over the label's text
    box padded by 2 pixels on each side, filled near-white with alpha 200
    (translucent, not opaque), then the label's text in opaque black. *)
Theorem label_rendering (fs : Fonts) (image : Image) (S : Z)
    (color : Z * Z * Z) (op th : Z) (cmds : list DrawCmd) :
  draw_grid_cmds fs image S color op th = Ok cmds ->
  (exists groups, cmds = List.concat groups /\ Forall label_group groups) /\
  (forall box fill, In (Rectangle box fill) cmds ->
     getink fill = mkRGBA 255 255 255 200) /\
  (forall xy text fill font, In (Text xy text fill font) cmds ->
     getink fill = mkRGBA 0 0 0 255).
Proof.
  intros Hcmds. unfold draw_grid_cmds in Hcmds.
  destruct (load_font_ok fs (font_size S)) as (ev & font & Hfont).
  rewrite Hfont in Hcmds.
  apply grid_cmds_inv in Hcmds as (_ & rows & cols & Hrows & Hcols & ->).
  assert (Hgroups : exists groups,
            rows ++ cols = List.concat groups /\ Forall label_group groups).
  { apply (for_each_groups label_group) in Hrows as (gr & -> & Hgr).
    2:{ intros i c Hc. apply row_cmds_shape in Hc as [[_ ->] | [_ ->]];
          [now left | right]. unfold label_group. do 7 eexists. reflexivity. }
    apply (for_each_groups label_group) in Hcols as (gc & -> & Hgc).
    2:{ intros i c Hc.
        apply col_cmds_shape in Hc as [[_ ->] | [_ (l & _ & ->)]];
          [now left | right]. unfold label_group. do 7 eexists. reflexivity. }
    exists (gr ++ gc). split; [now rewrite concat_app |].
    apply Forall_app. auto. }
  split; [exact Hgroups |].
  destruct Hgroups as (groups & -> & Hg).
  split.
  - intros box fill Hin. apply in_concat in Hin as (g & Hgin & Hin).
    rewrite Forall_forall in Hg. apply Hg in Hgin.
    destruct Hgin as (a & b & gc & w & xy & text & f & ->).
    destruct Hin as [E | [E | [E | []]]]; try discriminate E.
    injection E as _ <-. reflexivity.
  - intros xy text fill f' Hin. apply in_concat in Hin as (g & Hgin & Hin).
    rewrite Forall_forall in Hg. apply Hg in Hgin.
    destruct Hgin as (a & b & gc & w & xy' & text' & f & ->).
    destruct Hin as [E | [E | [E | []]]]; try discriminate E.
    injection E as _ _ <- _. reflexivity.
Qed.

(** The sample run's backgrounds have ink (255, 255, 255, 200). *)
Lemma label_rendering_witness :
  draw_grid_cmds Ref.no_truetype (Ref.solid 30 30 Ref.black) 10 (0, 0, 255) 255 2
  = Ok (Ref.sample_cmds 255) /\
  getink (255, 255, 255, 200) = mkRGBA 255 255 255 200.
Proof.
  split; [reflexivity |].
  apply (proj1 (proj2 (label_rendering Ref.no_truetype (Ref.solid 30 30 Ref.black)
                         10 (0, 0, 255) 255 2 (Ref.sample_cmds 255)
                         (sample_cmds_ok 255))) (8, 2, 18, 17)).
  right; left; reflexivity.
Defined.

(** ** The composite (C4, C6, C7) *)

Lemma Image_new_ok_inv (m : string) (sz : Z * Z) (c : Color) (im : Image) :
  Image_new m sz c = Ok im ->
  0 <= fst sz /\ 0 <= snd sz /\ mode im = m /\ size im = sz /\
  forall p, getpixel im p = getink c.
Proof.
  unfold Image_new.
  destruct (fst sz <? 0) eqn:E1; [discriminate |].
  destruct (snd sz <? 0) eqn:E2; [discriminate |].
  cbn [orb]. intros Him. injection Him as <-. cbn.
  repeat split; lia.
Qed.

Lemma alpha_composite_ok_inv (im1 im2 result : Image) :
  alpha_composite im1 im2 = Ok result ->
  size result = size im1 /\ mode result = "RGBA"%string /\
  forall p, getpixel result p
            = alpha_composite_px (getpixel im1 p) (getpixel im2 p).
Proof.
  unfold alpha_composite.
  destruct (negb (String.eqb (mode im1) "RGBA")); [discriminate |].
  destruct (negb (String.eqb (mode im2) "RGBA")
            || negb (fst (size im1) =? fst (size im2))
            || negb (snd (size im1) =? snd (size im2))); [discriminate |].
  intros Hr. injection Hr as <-. cbn. auto.
Qed.

Lemma alpha_composite_total (im1 im2 : Image) :
  mode im1 = "RGBA"%string -> mode im2 = "RGBA"%string ->
  size im1 = size im2 ->
  exists result, alpha_composite im1 im2 = Ok result.
Proof.
  intros M1 M2 Hs. unfold alpha_composite.
  rewrite M1, M2, Hs, !Z.eqb_refl. cbn. eauto.
Qed.

Section Composite.
Context `{Rasterizer}.

(** A returned image, pixel by pixel: the input's pixel under the pixel
    the drawing calls leave on a transparent overlay. *)
Lemma draw_grid_pixels (fs : Fonts) (image : Image) (S : Z)
    (color : Z * Z * Z) (op th : Z) (ev : list Event) (result : Image) :
  draw_grid fs image S color op th = (ev, Ok result) ->
  exists overlay cmds,
    draw_grid_cmds fs image S color op th = Ok cmds /\
    size overlay = size image /\
    (forall p, getpixel overlay p = mkRGBA 0 0 0 0) /\
    size result = size image /\
    forall p, getpixel result p
              = alpha_composite_px (getpixel image p)
                  (getpixel (fold_left exec cmds overlay) p).
Proof.
  intros Hrun.
  apply draw_grid_ok_inv in Hrun as (overlay & cmds & Hnew & Hcmds & Hcomp).
  apply Image_new_ok_inv in Hnew as (_ & _ & _ & Hsz & Hpx).
  apply alpha_composite_ok_inv in Hcomp as (Hrs & _ & Hrp).
  exists overlay, cmds. repeat split; auto.
Qed.

(** When [draw_grid] returns. *)
Lemma draw_grid_total (fs : Fonts) (image : Image) (S : Z)
    (color : Z * Z * Z) (op th : Z) :
  0 <= fst (size image) -> 0 <= snd (size image) ->
  0 < S -> fst (size image) <= S * label_limit ->
  exists ev result, draw_grid fs image S color op th = (ev, Ok result).
Proof.
  intros HW HH HS Hlim. unfold draw_grid.
  destruct (size image) as [W Ht] eqn:Hsz. cbn [fst snd] in *.
  unfold Image_new. cbn [fst snd].
  destruct (W <? 0) eqn:E1; [lia |]. destruct (Ht <? 0) eqn:E2; [lia |].
  cbn [orb lift bindM].
  destruct (load_font_ok fs (font_size S)) as (ev1 & font & ->).
  destruct (grid_cmds_total font W Ht S (color, op) th HS Hlim) as [cmds Hcmds].
  apply grid_cmds_inv in Hcmds as (_ & rows & cols & Hrows & Hcols & _).
  unfold floordiv. destruct (S =? 0) eqn:E3; [lia |].
  cbn [bindM emit]. rewrite Hrows, Hcols. cbn [bindM].
  match goal with
  | |- context [alpha_composite ?a ?b] =>
      destruct (alpha_composite_total a b) as [result ->]
  end.
  - reflexivity.
  - now rewrite fold_exec_mode.
  - rewrite fold_exec_size. cbn. congruence.
  - eauto.
Qed.

End Composite.

Lemma grid_cmds_line_fill (font : Font) (W Ht S : Z) (gc : Color) (th : Z)
    (cmds : list DrawCmd) (a b : Point) (f : Color) (w : Z) :
  grid_cmds font W Ht S gc th = Ok cmds ->
  In (Line a b f w) cmds -> f = gc /\ w = th.
Proof.
  intros Hcmds Hin.
  apply grid_cmds_inv in Hcmds as (_ & rows & cols & Hrows & Hcols & ->).
  apply in_app_iff in Hin as [Hin | Hin].
  - unfold horizontal_cmds in Hrows.
    apply (for_each_In _ _ _ Hrows) in Hin as (i & c & _ & Hc & Hin).
    apply row_cmds_shape in Hc as [[_ ->] | [_ ->]]; [contradiction |].
    destruct Hin as [E | [E | [E | []]]]; try discriminate E.
    injection E as _ _ <- <-. auto.
  - unfold vertical_cmds in Hcols.
    apply (for_each_In _ _ _ Hcols) in Hin as (i & c & _ & Hc & Hin).
    apply col_cmds_shape in Hc as [[_ ->] | [_ (l & _ & ->)]]; [contradiction |].
    destruct Hin as [E | [E | [E | []]]]; try discriminate E.
    injection E as _ _ <- <-. auto.
Qed.

(** C4: a pixel of the returned image outside every line stroke, label
    background and label text box is the input's pixel, colour and
    alpha. *)
Theorem pixels_outside_unchanged `{Rasterizer} (fs : Fonts) (image : Image)
    (S : Z) (color : Z * Z * Z) (op th : Z) (ev : list Event)
    (result : Image) (cmds : list DrawCmd) (p : Point) :
  draw_grid fs image S color op th = (ev, Ok result) ->
  draw_grid_cmds fs image S color op th = Ok cmds ->
  (forall c, In c cmds -> region c p = false) ->
  getpixel result p = getpixel image p.
Proof.
  intros Hrun Hcmds Hout.
  apply draw_grid_pixels in Hrun
    as (overlay & cmds' & Hcmds' & _ & Hclear & _ & Hpx).
  assert (cmds' = cmds) by congruence. subst cmds'.
  rewrite Hpx. apply alpha_composite_px_transparent.
  rewrite fold_exec_untouched.
  - now rewrite Hclear.
  - intros c Hc. specialize (Hout c Hc).
    destruct (touches c p) eqn:Ht; [| reflexivity].
    apply touches_region in Ht. congruence.
Qed.

(** The sample run returns. *)
Lemma sample_run_returns (op : Z) :
  exists ev result,
    draw_grid (H := Ref.ref_raster) Ref.no_truetype (Ref.solid 30 30 Ref.black)
      10 (0, 0, 255) op 2 = (ev, Ok result).
Proof.
  apply draw_grid_total; cbn [Ref.solid size fst snd]; unfold label_limit; lia.
Qed.

(** The pixel (25, 25) of the sample run, clear of lines and labels. *)
Lemma pixels_outside_unchanged_witness :
  forallb (fun c => negb (region (H := Ref.ref_raster) c (25, 25)))
          (Ref.sample_cmds 255) = true /\
  exists ev result,
    draw_grid (H := Ref.ref_raster) Ref.no_truetype (Ref.solid 30 30 Ref.black)
      10 (0, 0, 255) 255 2 = (ev, Ok result) /\
    getpixel result (25, 25) = Ref.black.
Proof.
  assert (Hout : forallb (fun c => negb (region (H := Ref.ref_raster) c (25, 25)))
                         (Ref.sample_cmds 255) = true) by (vm_compute; reflexivity).
  split; [exact Hout |].
  destruct (sample_run_returns 255) as (ev & result & Hrun).
  exists ev, result. split; [exact Hrun |].
  apply (pixels_outside_unchanged (H := Ref.ref_raster) Ref.no_truetype
           (Ref.solid 30 30 Ref.black) 10 (0, 0, 255) 255 2 ev result
           (Ref.sample_cmds 255) (25, 25) Hrun (sample_cmds_ok 255)).
  intros c Hc. rewrite forallb_forall in Hout.
  apply negb_true_iff. apply Hout. exact Hc.
Defined.

(** A returned pixel, from the input's pixel and the drawing calls. *)
Lemma draw_grid_pixel_value `{Rasterizer} (fs : Fonts) (image : Image)
    (S : Z) (color : Z * Z * Z) (op th : Z) (ev : list Event)
    (result : Image) (cmds : list DrawCmd) (p : Point) :
  draw_grid fs image S color op th = (ev, Ok result) ->
  draw_grid_cmds fs image S color op th = Ok cmds ->
  getpixel result p
  = alpha_composite_px (getpixel image p)
      (getpixel (fold_left exec cmds
                   (mkImage "None" "RGBA" (size image)
                      (fun _ => mkRGBA 0 0 0 0))) p).
Proof.
  intros Hrun Hcmds.
  apply draw_grid_ok_inv in Hrun as (overlay & cmds' & Hnew & Hcmds' & Hcomp).
  assert (cmds' = cmds) by congruence. subst cmds'.
  apply alpha_composite_ok_inv in Hcomp as (_ & _ & Hpx). rewrite Hpx. cbn.
  unfold Image_new in Hnew.
  destruct ((fst (size image) <? 0) || (snd (size image) <? 0));
    [discriminate |].
  injection Hnew as <-. reflexivity.
Qed.

(** C6, as stated, fails: in the sample run the pixel (5, 20) lies on the
    horizontal line at 20, yet the background of the label "A" is drawn
    over it later; with opacity 255 the pixel is grey, not the blue of the
    line, and with opacity 0 it is grey too, not the black of the input. *)
Lemma line_pixel_under_label :
  In (Line (0, 20) (30, 20) (0, 0, 255, 255) 2) (Ref.sample_cmds 255) /\
  stroke (Rasterizer := Ref.ref_raster) (0, 20) (30, 20) 2 (5, 20) = true /\
  (exists ev result,
     draw_grid (H := Ref.ref_raster) Ref.no_truetype (Ref.solid 30 30 Ref.black)
       10 (0, 0, 255) 255 2 = (ev, Ok result) /\
     getpixel result (5, 20) = mkRGBA 200 200 200 255) /\
  (exists ev result,
     draw_grid (H := Ref.ref_raster) Ref.no_truetype (Ref.solid 30 30 Ref.black)
       10 (0, 0, 255) 0 2 = (ev, Ok result) /\
     getpixel result (5, 20) = mkRGBA 200 200 200 255 /\
     getpixel (Ref.solid 30 30 Ref.black) (5, 20) = mkRGBA 0 0 0 255).
Proof.
  split; [vm_compute; tauto |]. split; [reflexivity |]. split.
  - destruct (sample_run_returns 255) as (ev & result & Hrun).
    exists ev, result. split; [exact Hrun |].
    rewrite (draw_grid_pixel_value _ _ _ _ _ _ _ _ _ _ Hrun (sample_cmds_ok 255)).
    vm_compute. reflexivity.
  - destruct (sample_run_returns 0) as (ev & result & Hrun).
    exists ev, result. split; [exact Hrun |].
    rewrite (draw_grid_pixel_value _ _ _ _ _ _ _ _ _ _ Hrun (sample_cmds_ok 0)).
    split; vm_compute; reflexivity.
Qed.

(** C6 (amended): at a pixel of a grid line's stroke that no later call
    (a label background, a glyph or another line) draws over, opacity 0
    leaves the input's pixel as it was, and opacity 255 with a colour of
    bytes makes the pixel that colour, fully opaque. *)
Theorem line_pixels `{Rasterizer} (fs : Fonts) (image : Image) (S : Z)
    (r g b op th : Z) (ev : list Event) (result : Image)
    (before after : list DrawCmd) (p0 p1 : Point) (f : Color) (w : Z)
    (p : Point) :
  draw_grid fs image S (r, g, b) op th = (ev, Ok result) ->
  draw_grid_cmds fs image S (r, g, b) op th
  = Ok (before ++ Line p0 p1 f w :: after) ->
  in_bounds image p = true ->
  stroke p0 p1 w p = true ->
  (forall c, In c after -> touches c p = false) ->
  (op = 0 -> getpixel result p = getpixel image p) /\
  (op = 255 ->
   valid_channel r -> valid_channel g -> valid_channel b ->
   getpixel result p = mkRGBA r g b 255).
Proof.
  intros Hrun Hcmds Hb Hs Hafter.
  rewrite (draw_grid_pixel_value _ _ _ _ _ _ _ _ _ p Hrun Hcmds).
  rewrite fold_exec_top_line by assumption.
  assert (Hf : f = (r, g, b, op)).
  { unfold draw_grid_cmds in Hcmds.
    destruct (load_font_ok fs (font_size S)) as (ev' & font & Hfont).
    rewrite Hfont in Hcmds.
    apply (grid_cmds_line_fill _ _ _ _ _ _ _ p0 p1 f w Hcmds).
    apply in_app_iff. right. now left. }
  subst f. split.
  - intros ->. apply alpha_composite_px_transparent. reflexivity.
  - intros -> Hr Hg Hbl. cbn [getink].
    rewrite !CLIP8_id by (assumption || (unfold valid_channel; lia)).
    apply alpha_composite_px_opaque; assumption || reflexivity.
Qed.

(** The pixel (25, 0) of the sample run lies on the horizontal line at
    0 and nothing is drawn over it: it is blue and opaque. *)
Lemma line_pixels_witness :
  in_bounds (Ref.solid 30 30 Ref.black) (25, 0) = true /\
  stroke (Rasterizer := Ref.ref_raster) (0, 0) (30, 0) 2 (25, 0) = true /\
  exists ev result,
    draw_grid (H := Ref.ref_raster) Ref.no_truetype (Ref.solid 30 30 Ref.black)
      10 (0, 0, 255) 255 2 = (ev, Ok result) /\
    getpixel result (25, 0) = mkRGBA 0 0 255 255.
Proof.
  split; [reflexivity |]. split; [reflexivity |].
  destruct (sample_run_returns 255) as (ev & result & Hrun).
  exists ev, result. split; [exact Hrun |].
  pose (before := firstn 0 (Ref.sample_cmds 255)).
  pose (after := skipn 1 (Ref.sample_cmds 255)).
  assert (Hafter : forallb (fun c => negb (touches (H := Ref.ref_raster) c (25, 0)))
                     after = true) by (vm_compute; reflexivity).
  refine (proj2 (line_pixels (H := Ref.ref_raster) Ref.no_truetype
                   (Ref.solid 30 30 Ref.black) 10 0 0 255 255 2 ev result
                   before after (0, 0) (30, 0) (0, 0, 255, 255) 2 (25, 0)
                   Hrun _ _ _ _) _ _ _ _).
  - reflexivity.
  - reflexivity.
  - reflexivity.
  - intros c Hc. rewrite forallb_forall in Hafter.
    apply negb_true_iff. apply Hafter. exact Hc.
  - reflexivity.
  - unfold valid_channel. lia.
  - unfold valid_channel. lia.
  - unfold valid_channel. lia.
Defined.

(** C7: the image [draw_grid] returns has the width and height of the
    input; and it does return one for an image of non-negative size and a
    positive spacing (every column index staying below [label_limit]). *)
Theorem draw_grid_size `{Rasterizer} (fs : Fonts) (image : Image) (S : Z)
    (color : Z * Z * Z) (op th : Z) :
  (forall ev result,
     draw_grid fs image S color op th = (ev, Ok result) ->
     size result = size image) /\
  (0 <= fst (size image) -> 0 <= snd (size image) ->
   0 < S -> fst (size image) <= S * label_limit ->
   exists ev result,
     draw_grid fs image S color op th = (ev, Ok result) /\
     size result = size image).
Proof.
  assert (Hsize : forall ev result,
            draw_grid fs image S color op th = (ev, Ok result) ->
            size result = size image).
  { intros ev result Hrun.
    apply draw_grid_pixels in Hrun as (_ & _ & _ & _ & _ & Hsz & _).
    exact Hsz. }
  split; [exact Hsize |].
  intros HW HH HS Hlim.
  destruct (draw_grid_total fs image S color op th HW HH HS Hlim)
    as (ev & result & Hrun).
  exists ev, result. split; [exact Hrun | eapply Hsize; exact Hrun].
Qed.

(** The sample run returns a 30 x 30 image. *)
Lemma draw_grid_size_witness :
  exists ev result,
    draw_grid (H := Ref.ref_raster) Ref.no_truetype (Ref.solid 30 30 Ref.black)
      10 (0, 0, 255) 255 2 = (ev, Ok result) /\
    size result = (30, 30).
Proof.
  apply (proj2 (draw_grid_size (H := Ref.ref_raster) Ref.no_truetype
                  (Ref.solid 30 30 Ref.black) 10 (0, 0, 255) 255 2));
    cbn [Ref.solid size fst snd]; unfold label_limit; lia.
Defined.

(** ** Runs of [draw_grid], stage by stage *)

Lemma range_split (n k : Z) :
  0 <= k < n -> exists ys, range n = range k ++ k :: ys.
Proof.
  intros Hk. unfold range.
  replace (Z.to_nat n)
    with (Z.to_nat k + Datatypes.S (Z.to_nat n - Z.to_nat k - 1))%nat by lia.
  rewrite seq_app, map_app. cbn [seq map Nat.add].
  rewrite Z2Nat.id by lia. eexists. reflexivity.
Qed.

(** A loop raises what its first failing turn raises. *)
Lemma for_each_first_raise {A B} (body : A -> Result (list B)) (xs : list A)
    (y : A) (ys : list A) (e : Exc) :
  (forall x, In x xs -> exists c, body x = Ok c) ->
  body y = Raise e ->
  for_each (xs ++ y :: ys) body = Raise e.
Proof.
  intros Hok Hy. induction xs as [| x xs IH]; simpl.
  - now rewrite Hy.
  - destruct (Hok x (or_introl eq_refl)) as [c ->]. cbn [bind].
    rewrite IH; [reflexivity |]. intros z Hz. apply Hok. now right.
Qed.

Section Runs.
Context `{Rasterizer}.
Variables (fs : Fonts) (image : Image) (S : Z) (color : Z * Z * Z)
          (op th : Z).
Hypothesis size_nonneg : 0 <= fst (size image) /\ 0 <= snd (size image).

(** A run of [draw_grid], stage by stage. *)
Lemma draw_grid_run (evf : list Event) (font : Font) :
  load_font fs (font_size S) = (evf, Ok font) ->
  draw_grid fs image S color op th
  = if S =? 0 then (evf, Raise zero_division_error)
    else
      (evf ++ grid_log (size image) S th,
       match grid_cmds font (fst (size image)) (snd (size image)) S
               (color, op) th with
       | Ok cmds =>
           alpha_composite (convert_RGBA image)
             (fold_left exec cmds (blank_overlay (size image)))
       | Raise e => Raise e
       end).
Proof.
  intros Hfont. unfold draw_grid, grid_cmds, grid_log.
  destruct (size image) as [W Ht] eqn:Hsz. cbn [fst snd] in *.
  unfold Image_new. cbn [fst snd].
  destruct (W <? 0) eqn:E1; [lia |]. destruct (Ht <? 0) eqn:E2; [lia |].
  cbn [orb lift bindM]. rewrite Hfont.
  unfold floordiv. destruct (S =? 0) eqn:E3.
  - cbn [bindM]. now rewrite app_nil_r.
  - cbn [bindM emit bind].
    destruct (horizontal_cmds font W Ht S (color, op) th (Ht / S + 1))
      as [rows | e]; cbn [bindM bind].
    2:{ now rewrite !app_nil_r. }
    destruct (vertical_cmds font W Ht S (color, op) th (W / S + 1))
      as [cols | e]; cbn [bindM bind].
    2:{ now rewrite !app_nil_r. }
    unfold blank_overlay. cbn [getink CLIP8 Z.ltb Z.compare].
    rewrite !app_nil_r. reflexivity.
Qed.

Lemma composite_returns (cmds : list DrawCmd) :
  exists result,
    alpha_composite (convert_RGBA image)
      (fold_left exec cmds (blank_overlay (size image))) = Ok result.
Proof.
  apply alpha_composite_total; [reflexivity | |].
  - now rewrite fold_exec_mode.
  - now rewrite fold_exec_size.
Qed.

(** With a negative spacing neither loop draws. *)
Lemma grid_cmds_negative_spacing (font : Font) :
  S < 0 ->
  grid_cmds font (fst (size image)) (snd (size image)) S (color, op) th
  = Ok [].
Proof.
  intros HS. destruct size_nonneg as [HW HH].
  assert (Hdiv : forall d, 0 <= d -> forall i, 0 <= i < d / S + 1 ->
                   i = 0 /\ d = 0).
  { intros d Hd i Hi.
    pose proof (Z.div_mod d S ltac:(lia)) as E.
    pose proof (Z.mod_neg_bound d S HS) as B. nia. }
  assert (Hnil : forall {B} (body : Z -> Result (list B)) (xs : list Z),
            (forall x, In x xs -> body x = Ok []) -> for_each xs body = Ok []).
  { intros B body xs. induction xs as [| x xs IH]; intros Hall; simpl.
    - reflexivity.
    - rewrite (Hall x (or_introl eq_refl)). cbn [bind].
      rewrite IH by (intros y Hy; apply Hall; now right). reflexivity. }
  unfold grid_cmds, floordiv. destruct (S =? 0) eqn:E; [lia |]. cbn [bind].
  unfold horizontal_cmds, vertical_cmds.
  rewrite (Hnil _ (row_cmds _ _ _ _ _ _)), (Hnil _ (col_cmds _ _ _ _ _ _)).
  - reflexivity.
  - intros i Hi. apply range_In in Hi.
    destruct (Hdiv _ HW i Hi) as [-> E0]. unfold col_cmds.
    rewrite Z.geb_leb. destruct (fst (size image) <=? 0 * S) eqn:E'; [reflexivity | lia].
  - intros i Hi. apply range_In in Hi.
    destruct (Hdiv _ HH i Hi) as [-> E0]. unfold row_cmds.
    rewrite Z.geb_leb. destruct (snd (size image) <=? 0 * S) eqn:E'; [reflexivity | lia].
Qed.

(** With a column index that reaches [label_limit] the column loop
    raises the error of [chr] at that index, the first without a label. *)
Lemma grid_cmds_too_wide (font : Font) :
  0 < S -> S * label_limit < fst (size image) ->
  grid_cmds font (fst (size image)) (snd (size image)) S (color, op) th
  = Raise chr_range_error.
Proof.
  intros HS Hwide. unfold grid_cmds, floordiv.
  destruct (S =? 0) eqn:E; [lia |]. cbn [bind].
  destruct (for_each_ok_intro
              (row_cmds font (fst (size image)) (snd (size image)) S (color, op) th)
              (range (snd (size image) / S + 1))) as [rows Hrows];
    [intros i _; apply row_cmds_total |].
  unfold horizontal_cmds. rewrite Hrows. cbn [bind].
  unfold vertical_cmds.
  assert (Hn : 0 <= label_limit < fst (size image) / S + 1).
  { unfold label_limit in *.
    assert (28965248 <= fst (size image) / S)
      by (apply Z.div_le_lower_bound; lia). lia. }
  destruct (range_split _ _ Hn) as [ys ->].
  rewrite (for_each_first_raise _ _ _ _ chr_range_error); [reflexivity | |].
  - intros i Hi. apply range_In in Hi. apply col_cmds_total. exact Hi.
  - unfold col_cmds. rewrite Z.geb_leb.
    destruct (fst (size image) <=? label_limit * S) eqn:E'; [lia |].
    rewrite label_value_error
      by (unfold label_limit, label_overflow_limit; lia).
    reflexivity.
Qed.

End Runs.

(** The drawing calls of a run that returns, and what they leave in the
    image returned: each pixel is the input's pixel under the pixel the
    calls leave on a transparent overlay. *)
Lemma draw_grid_calls `{Rasterizer} (fs : Fonts) (image : Image) (S : Z)
    (color : Z * Z * Z) (op th : Z) (ev : list Event) (result : Image) :
  draw_grid fs image S color op th = (ev, Ok result) ->
  0 <= fst (size image) /\ 0 <= snd (size image) /\
  exists cmds,
    draw_grid_cmds fs image S color op th = Ok cmds /\
    forall p, getpixel result p
              = alpha_composite_px (getpixel image p)
                  (getpixel (fold_left exec cmds (blank_overlay (size image)))
                     p).
Proof.
  intros Hrun.
  destruct (draw_grid_ok_inv _ _ _ _ _ _ _ _ Hrun)
    as (overlay & cmds & Hnew & Hcmds & _).
  apply Image_new_ok_inv in Hnew as (HW & HH & _).
  split; [exact HW |]. split; [exact HH |].
  exists cmds. split; [exact Hcmds |]. intros p.
  apply (draw_grid_pixel_value _ _ _ _ _ _ _ _ _ p Hrun Hcmds).
Qed.

(** ** Grid lines of a run (C2) *)




(** ** Runs of [main] (C8, C9) *)

Lemma bindM_eq {A B} (m : M A) (k : A -> M B) :
  bindM m k = match snd m with
              | Ok a => (fst m ++ fst (k a), snd (k a))
              | Raise e => (fst m, Raise e)
              end.
Proof.
  destruct m as [ev [a | e]]; simpl; [| reflexivity].
  destruct (k a); reflexivity.
Qed.

(** An event of [m ;; k] is one of [m] or, [m] having returned, one of
    [k]. *)
Lemma In_bindM {A B} (m : M A) (k : A -> M B) (e : Event) :
  In e (fst (bindM m k)) ->
  In e (fst m) \/ exists a, snd m = Ok a /\ In e (fst (k a)).
Proof.
  rewrite bindM_eq. destruct (snd m) as [a | x]; cbn [fst].
  - rewrite in_app_iff. intros [He | He]; [now left | right; eauto].
  - now left.
Qed.

Lemma try_fonts_events (fs : Fonts) (paths : list string) (n : Z) (e : Event) :
  In e (fst (try_fonts fs paths n)) -> e = font_warning.
Proof.
  induction paths as [| p paths IH]; cbn.
  - intros [<- | []]. reflexivity.
  - destruct (truetype fs p n); [intros [] | exact IH].
Qed.

Lemma draw_grid_events `{Rasterizer} (fs : Fonts) (image : Image) (S : Z)
    (color : Z * Z * Z) (op th : Z) (e : Event) :
  In e (fst (draw_grid fs image S color op th)) -> grid_event e.
Proof.
  unfold draw_grid. destruct (size image) as [W Ht].
  intros He.
  apply In_bindM in He as [[] | (overlay & _ & He)].
  apply In_bindM in He as [He | (font & _ & He)].
  { left. unfold load_font in He.
    destruct (truetype fs "Arial.ttf" (font_size S)); [destruct He |].
    eapply try_fonts_events, He. }
  apply In_bindM in He as [[] | (q_h & _ & He)].
  apply In_bindM in He as [[] | (q_v & _ & He)].
  apply In_bindM in He as [[<- | []] | (? & _ & He)];
    [right; eauto |].
  apply In_bindM in He as [[<- | []] | (? & _ & He)];
    [right; eauto |].
  apply In_bindM in He as [[] | (rows & _ & He)].
  apply In_bindM in He as [[] | (cols & _ & He)].
  destruct He.
Qed.

Lemma logger_debug_events (dbg : bool) (msg : string) (e : Event) :
  In e (fst (logger_debug dbg msg)) -> e = Log DEBUG msg.
Proof. destruct dbg; cbn; [intros [<- | []]; reflexivity | intros []]. Qed.

Lemma logger_debug_ok (dbg : bool) (msg : string) :
  snd (logger_debug dbg msg) = Ok tt.
Proof. destruct dbg; reflexivity. Qed.

Lemma main_try_saved `{Rasterizer} (w : World) (args : Args) (path : string)
    (img : Image) :
  In (Saved path img) (fst (main_try w args)) ->
  exists image ev op,
    Image_open w (input_image args) = Ok image /\
    ((0 <= opacity args <= 255 /\ op = opacity args) \/
     (~ 0 <= opacity args <= 255 /\ op = 128)) /\
    draw_grid (fonts w) (as_rgba image) (spacing args) (color args) op
      (thickness args) = (ev, Ok img).
Proof.
  unfold main_try. intros He.
  apply In_bindM in He as [He | (? & _ & He)].
  { destruct (negb (os_path_exists w (input_image args))); destruct He. }
  apply In_bindM in He as [[He | []] | (? & _ & He)]; [discriminate He |].
  destruct (Image_open w (input_image args)) as [image | exn] eqn:Hopen.
  2:{ apply In_bindM in He as [[] | (? & Hx & _)]. discriminate Hx. }
  apply In_bindM in He as [He | (image' & Himg & He)].
  { apply In_bindM in He as [He | (? & _ & [])].
    apply logger_debug_events in He. discriminate He. }
  assert (image' = image) as ->.
  { rewrite bindM_eq, logger_debug_ok in Himg. cbn in Himg. congruence. }
  apply In_bindM in He as [He | (args' & Hargs & He)].
  { destruct (negb ((0 <=? opacity args) && (opacity args <=? 255)));
      [destruct He as [He | []]; discriminate He | destruct He]. }
  assert (Hargs' : input_image args' = input_image args /\
                   spacing args' = spacing args /\ color args' = color args /\
                   thickness args' = thickness args /\
                   ((0 <= opacity args <= 255 /\ opacity args' = opacity args) \/
                    (~ 0 <= opacity args <= 255 /\ opacity args' = 128))).
  { destruct ((0 <=? opacity args) && (opacity args <=? 255)) eqn:Hb;
      cbn in Hargs; injection Hargs as <-; cbn; repeat split; auto.
    - left. split; [| reflexivity].
      apply andb_prop in Hb as [Hb1 Hb2]. lia.
    - right. split; [| reflexivity]. apply andb_false_iff in Hb. lia. }
  destruct Hargs' as (_ & E1 & E2 & E3 & Hop).
  rewrite E1, E2, E3 in He.
  apply In_bindM in He as [He | (out & _ & He)].
  { destruct (output args'); [destruct He |].
    apply In_bindM in He as [He | (? & _ & [])].
    apply logger_debug_events in He. discriminate He. }
  apply In_bindM in He as [He | (image1 & Himg1 & He)].
  { destruct (negb (mode image =? "RGBA")%string); [| destruct He].
    apply In_bindM in He as [He | (? & _ & He)].
    { apply logger_debug_events in He. discriminate He. }
    apply In_bindM in He as [[] | (? & _ & [])]. }
  assert (image1 = as_rgba image) as ->.
  { unfold as_rgba. destruct (negb (mode image =? "RGBA")%string).
    - rewrite bindM_eq, logger_debug_ok in Himg1. cbn in Himg1.
      destruct (Image_load w image); cbn in Himg1; congruence.
    - cbn in Himg1. congruence. }
  apply In_bindM in He as [He | (grid_image & Hgrid & He)].
  { apply draw_grid_events in He as [He | [msg He]]; discriminate He. }
  apply In_bindM in He as [He | (? & _ & He)].
  { destruct (mode image =? "RGBA")%string; destruct He. }
  apply In_bindM in He as [[He | []] | (? & _ & He)]; [discriminate He |].
  apply In_bindM in He as [[] | (? & _ & He)].
  apply In_bindM in He as [[He | []] | (? & _ & He)].
  - injection He as <- <-.
    exists image, (fst (draw_grid (fonts w) (as_rgba image) (spacing args)
                          (color args) (opacity args') (thickness args))),
           (opacity args').
    split; [reflexivity |]. split.
    + destruct Hop as [[? ->] | [? ->]]; auto.
    + rewrite <- Hgrid. apply surjective_pairing.
  - apply In_bindM in He as [[He | []] | (? & _ & [])]. discriminate He.
Qed.

(** [main], from the run of its [try] body. *)
Lemma main_eq `{Rasterizer} (w : World) (args : Args) :
  main w args
  = match snd (main_try w args) with
    | Ok _ => (debug_banner args ++ fst (main_try w args), 0)
    | Raise e =>
        (debug_banner args ++ fst (main_try w args) ++ handler_events e, 1)
    end.
Proof.
  unfold main, debug_banner, handler_events.
  destruct (main_try w args) as [ev [out | e]]; cbn [fst snd];
    [reflexivity |].
  destruct (exc_class e); reflexivity.
Qed.

(** With an opacity out of range, the [try] body runs as with opacity
    128, but for the warning once the image is open. *)
Lemma main_try_invalid_opacity `{Rasterizer} (w : World) (args : Args) :
  ~ 0 <= opacity args <= 255 ->
  snd (main_try w args) = snd (main_try w (set_opacity args 128)) /\
  exists pre post,
    fst (main_try w (set_opacity args 128)) = pre ++ post /\
    fst (main_try w args)
    = pre ++ (if os_path_exists w (input_image args) then
                match Image_open w (input_image args) with
                | Ok _ => [opacity_warning args]
                | Raise _ => []
                end
              else []) ++ post.
Proof.
  intros Hop.
  assert (Hb : (0 <=? opacity args) && (opacity args <=? 255) = false)
    by (apply andb_false_iff; lia).
  unfold main_try.
  cbn [input_image set_opacity opacity debug output spacing color thickness].
  change ((0 <=? 128) && (128 <=? 255)) with true. rewrite Hb. cbn [negb].
  destruct (os_path_exists w (input_image args)); cbn [negb].
  2:{ split; [reflexivity |]. exists [], []. split; reflexivity. }
  destruct (Image_open w (input_image args)) as [image | exn].
  2:{ split; [reflexivity |].
      eexists; exists []. rewrite !app_nil_r. split; reflexivity. }
  destruct (debug args); cbn [bindM ret emit logger_debug app];
    match goal with
    | |- context [bindM ?m ?k] => destruct (bindM m k) as [evK rK]
    end; cbn [fst snd]; (split; [reflexivity |]).
  - exists [ Log INFO ("Opening image: " ++ input_image args);
             Log DEBUG ("Image format: " ++ im_format image ++ ", Size: "
                        ++ repr_size (size image) ++ ", Mode: " ++ mode image) ],
           evK.
    split; reflexivity.
  - exists [ Log INFO ("Opening image: " ++ input_image args) ], evK.
    split; reflexivity.
Qed.

(** With an opacity in range, there is no warning about it. *)
Lemma main_try_valid_opacity `{Rasterizer} (w : World) (args : Args) :
  0 <= opacity args <= 255 ->
  ~ In (opacity_warning args) (fst (main_try w args)).
Proof.
  intros Hop He.
  assert (Hb : (0 <=? opacity args) && (opacity args <=? 255) = true)
    by (apply andb_true_intro; split; apply Z.leb_le; lia).
  unfold main_try in He. rewrite Hb in He. cbn [negb] in He.
  unfold opacity_warning in He.
  apply In_bindM in He as [He | (? & _ & He)].
  { destruct (negb (os_path_exists w (input_image args))); destruct He. }
  apply In_bindM in He as [[He | []] | (? & _ & He)]; [discriminate He |].
  apply In_bindM in He as [He | (image & _ & He)].
  { destruct (Image_open w (input_image args)); [| destruct He].
    apply In_bindM in He as [He | (? & _ & [])].
    apply logger_debug_events in He. discriminate He. }
  apply In_bindM in He as [[] | (args' & _ & He)].
  apply In_bindM in He as [He | (out & _ & He)].
  { destruct (output args'); [destruct He |].
    apply In_bindM in He as [He | (? & _ & [])].
    apply logger_debug_events in He. discriminate He. }
  apply In_bindM in He as [He | (image1 & _ & He)].
  { destruct (negb (mode image =? "RGBA")%string); [| destruct He].
    apply In_bindM in He as [He | (? & _ & He)].
    { apply logger_debug_events in He. discriminate He. }
    apply In_bindM in He as [[] | (? & _ & [])]. }
  apply In_bindM in He as [He | (grid_image & _ & He)].
  { apply draw_grid_events in He as [He | [msg He]]; discriminate He. }
  apply In_bindM in He as [He | (? & _ & He)].
  { destruct (mode image =? "RGBA")%string; destruct He. }
  apply In_bindM in He as [[He | []] | (? & _ & He)]; [discriminate He |].
  apply In_bindM in He as [[] | (? & _ & He)].
  apply In_bindM in He as [[He | []] | (? & _ & He)]; [discriminate He |].
  apply In_bindM in He as [[He | []] | (? & _ & [])]. discriminate He.
Qed.

Lemma handler_events_report (e : Exc) (ev : Event) :
  In ev (handler_events e) ->
  (exists msg, ev = Log ERROR msg) \/ (exists line, ev = PrintErr line).
Proof.
  unfold handler_events.
  destruct (exc_class e); intros [<- | [<- | []]]; eauto.
Qed.

Lemma debug_banner_events (args : Args) (ev : Event) :
  In ev (debug_banner args) -> ev = Log DEBUG "Debug mode enabled".
Proof.
  unfold debug_banner. destruct (debug args); [intros [<- | []] | intros []].
  reflexivity.
Qed.

(** An event of [main] that is neither the banner nor a report of an
    error is one of the [try] body. *)
Lemma main_events `{Rasterizer} (w : World) (args : Args) (ev : Event) :
  In ev (fst (main w args)) ->
  ev = Log DEBUG "Debug mode enabled" \/
  In ev (fst (main_try w args)) \/
  (exists msg, ev = Log ERROR msg) \/ (exists line, ev = PrintErr line).
Proof.
  rewrite main_eq. destruct (snd (main_try w args)) as [out | e]; cbn [fst];
    rewrite !in_app_iff.
  - intros [Hev | Hev]; [left; now apply debug_banner_events in Hev | auto].
  - intros [Hev | [Hev | Hev]];
      [left; now apply debug_banner_events in Hev | auto |].
    right; right. now apply handler_events_report in Hev.
Qed.

(** A run of the [try] body that ends normally saved the image and said
    so. *)
Lemma main_try_ok_inv `{Rasterizer} (w : World) (args : Args)
    (ev : list Event) (out : string) :
  main_try w args = (ev, Ok out) ->
  exists ev' img,
    ev = ev' ++ [ Saved out img;
                  PrintOut ("Successfully created grid overlay: " ++ out) ].
Proof.
  unfold main_try. intros Hrun.
  apply bindM_ok_inv in Hrun as (e1 & ? & r1 & _ & Hrun & ->).
  apply bindM_ok_inv in Hrun as (e2 & ? & r2 & _ & Hrun & ->).
  apply bindM_ok_inv in Hrun as (e3 & image & r3 & _ & Hrun & ->).
  apply bindM_ok_inv in Hrun as (e4 & args' & r4 & _ & Hrun & ->).
  apply bindM_ok_inv in Hrun as (e5 & out' & r5 & _ & Hrun & ->).
  apply bindM_ok_inv in Hrun as (e6 & image1 & r6 & _ & Hrun & ->).
  apply bindM_ok_inv in Hrun as (e7 & grid_image & r7 & _ & Hrun & ->).
  apply bindM_ok_inv in Hrun as (e7' & ? & r7' & _ & Hrun & ->).
  apply bindM_ok_inv in Hrun as (e8 & ? & r8 & _ & Hrun & ->).
  apply bindM_ok_inv in Hrun as (e9 & ? & r9 & _ & Hrun & ->).
  apply bindM_ok_inv in Hrun as (e10 & ? & r10 & Hs & Hrun & ->).
  apply bindM_ok_inv in Hrun as (e11 & ? & r11 & Hp & Hrun & ->).
  injection Hrun as <- <-. injection Hs as <-. injection Hp as <-.
  exists (e1 ++ e2 ++ e3 ++ e4 ++ e5 ++ e6 ++ e7 ++ e7' ++ e8 ++ e9), grid_image.
  rewrite <- !app_assoc. reflexivity.
Qed.

(** The two ways the [try] body ends before it draws. *)
Lemma main_try_missing `{Rasterizer} (w : World) (args : Args) :
  os_path_exists w (input_image args) = false ->
  main_try w args
  = ([], Raise (mkExc FileNotFoundError
                  ("Input file not found: " ++ input_image args))).
Proof. intros Hex. unfold main_try. rewrite Hex. reflexivity. Qed.

Lemma main_try_unreadable `{Rasterizer} (w : World) (args : Args) (e : Exc) :
  os_path_exists w (input_image args) = true ->
  Image_open w (input_image args) = Raise e ->
  main_try w args
  = ([Log INFO ("Opening image: " ++ input_image args)],
     Raise (mkExc ValueError ("Failed to open image: " ++ exc_msg e))).
Proof. intros Hex Hopen. unfold main_try. rewrite Hex, Hopen. reflexivity. Qed.

Lemma main_saved `{Rasterizer} (w : World) (args : Args) (path : string)
    (img : Image) :
  In (Saved path img) (fst (main w args)) ->
  In (Saved path img) (fst (main_try w args)).
Proof.
  intros Hev.
  apply main_events in Hev as [Hev | [Hev | [[msg Hev] | [line Hev]]]];
    [discriminate Hev | exact Hev | discriminate Hev | discriminate Hev].
Qed.

(** C8: an opacity outside [0, 255] does not change the exit code, and
    once the image is open the run is the run with opacity 128 plus one
    warning; the image saved is drawn with opacity 128.  An opacity inside
    [0, 255] gives no such warning, and the image saved is drawn with
    it. *)
Theorem opacity_validation `{Rasterizer} (w : World) (args : Args) :
  (~ 0 <= opacity args <= 255 ->
   snd (main w args) = snd (main w (set_opacity args 128)) /\
   (forall image,
      os_path_exists w (input_image args) = true ->
      Image_open w (input_image args) = Ok image ->
      exists pre post,
        fst (main w (set_opacity args 128)) = pre ++ post /\
        fst (main w args) = pre ++ opacity_warning args :: post) /\
   (forall path img,
      In (Saved path img) (fst (main w args)) ->
      exists image ev,
        Image_open w (input_image args) = Ok image /\
        draw_grid (fonts w) (as_rgba image) (spacing args) (color args) 128
          (thickness args) = (ev, Ok img))) /\
  (0 <= opacity args <= 255 ->
   ~ In (opacity_warning args) (fst (main w args)) /\
   (forall path img,
      In (Saved path img) (fst (main w args)) ->
      exists image ev,
        Image_open w (input_image args) = Ok image /\
        draw_grid (fonts w) (as_rgba image) (spacing args) (color args)
          (opacity args) (thickness args) = (ev, Ok img))).
Proof.
  split.
  - intros Hop.
    destruct (main_try_invalid_opacity w args Hop) as (Hsnd & pre & post & E128 & E).
    split; [| split].
    + rewrite !main_eq, Hsnd.
      destruct (snd (main_try w (set_opacity args 128))); reflexivity.
    + intros image Hex Hopen. rewrite Hex, Hopen in E.
      rewrite !main_eq, Hsnd.
      replace (debug_banner (set_opacity args 128)) with (debug_banner args)
        by reflexivity.
      destruct (snd (main_try w (set_opacity args 128))) as [out | e];
        cbn [fst]; rewrite E, E128.
      * exists (debug_banner args ++ pre), post.
        rewrite <- !app_assoc. split; reflexivity.
      * exists (debug_banner args ++ pre), (post ++ handler_events e).
        rewrite <- !app_assoc. split; reflexivity.
    + intros path img Hev.
      apply main_saved, main_try_saved in Hev
        as (image & ev & op & Hopen & [[Hin _] | [_ ->]] & Hrun);
        [contradiction | eauto].
  - intros Hop. split.
    + intros Hev.
      apply main_events in Hev as [Hev | [Hev | [[msg Hev] | [line Hev]]]];
        try discriminate Hev.
      now apply main_try_valid_opacity in Hev.
    + intros path img Hev.
      apply main_saved, main_try_saved in Hev
        as (image & ev & op & Hopen & [[_ ->] | [Hout _]] & Hrun);
        [eauto | contradiction].
Qed.

(** Opacity 300 on the sample machine: the run with 128, and the
    warning. *)
Lemma opacity_validation_witness :
  ~ 0 <= opacity (Ref.photo_args 300) <= 255 /\
  snd (main (H := Ref.ref_raster) Ref.photo_world (Ref.photo_args 300))
  = snd (main (H := Ref.ref_raster) Ref.photo_world
           (set_opacity (Ref.photo_args 300) 128)) /\
  exists pre post,
    fst (main (H := Ref.ref_raster) Ref.photo_world
           (set_opacity (Ref.photo_args 300) 128)) = pre ++ post /\
    fst (main (H := Ref.ref_raster) Ref.photo_world (Ref.photo_args 300))
    = pre ++ Log WARNING "Invalid opacity value: 300. Using default: 128"
          :: post.
Proof.
  assert (Hop : ~ 0 <= opacity (Ref.photo_args 300) <= 255)
    by (cbn [Ref.photo_args opacity]; lia).
  split; [exact Hop |].
  pose proof (proj1 (opacity_validation (H := Ref.ref_raster) Ref.photo_world
                       (Ref.photo_args 300)) Hop) as (Hcode & Htrace & _).
  split; [exact Hcode |].
  exact (Htrace (Ref.solid 30 30 Ref.black) eq_refl eq_refl).
Defined.

(** C9: [main] returns 0 exactly when the body of its [try] ends
    normally, the image saved and the success line printed; it returns 1
    on every exception, with a line on standard error that carries the
    exception's message: "Error: ..." for a missing input file, for an
    image that cannot be opened and for any other [FileNotFoundError] or
    [ValueError], "Unexpected error: ..." for the rest. *)
Theorem main_exit_code `{Rasterizer} (w : World) (args : Args) :
  (snd (main w args) = 0 <-> exists ev out, main_try w args = (ev, Ok out)) /\
  (snd (main w args) = 0 \/ snd (main w args) = 1) /\
  (forall ev out,
     main_try w args = (ev, Ok out) ->
     exists ev' img,
       fst (main w args)
       = ev' ++ [ Saved out img;
                  PrintOut ("Successfully created grid overlay: " ++ out) ]) /\
  (forall ev e,
     main_try w args = (ev, Raise e) ->
     snd (main w args) = 1 /\
     (exc_class e = FileNotFoundError \/ exc_class e = ValueError ->
      In (PrintErr ("Error: " ++ exc_msg e)) (fst (main w args))) /\
     (exc_class e <> FileNotFoundError -> exc_class e <> ValueError ->
      In (PrintErr ("Unexpected error: " ++ exc_msg e)) (fst (main w args)))) /\
  (os_path_exists w (input_image args) = false ->
   snd (main w args) = 1 /\
   In (PrintErr ("Error: Input file not found: " ++ input_image args))
      (fst (main w args))) /\
  (forall e,
     os_path_exists w (input_image args) = true ->
     Image_open w (input_image args) = Raise e ->
     snd (main w args) = 1 /\
     In (PrintErr ("Error: Failed to open image: " ++ exc_msg e))
        (fst (main w args))).
Proof.
  assert (Hraise : forall ev e,
     main_try w args = (ev, Raise e) ->
     snd (main w args) = 1 /\
     (exc_class e = FileNotFoundError \/ exc_class e = ValueError ->
      In (PrintErr ("Error: " ++ exc_msg e)) (fst (main w args))) /\
     (exc_class e <> FileNotFoundError -> exc_class e <> ValueError ->
      In (PrintErr ("Unexpected error: " ++ exc_msg e)) (fst (main w args)))).
  { intros ev e Hrun. rewrite main_eq, Hrun. cbn [fst snd].
    split; [reflexivity |]. unfold handler_events. split.
    - intros [-> | ->]; rewrite !in_app_iff; right; right; right; now left.
    - intros H1 H2. rewrite !in_app_iff. right; right.
      destruct (exc_class e); try contradiction; right; now left. }
  split; [| split; [| split; [| split; [exact Hraise | split]]]].
  - rewrite main_eq. destruct (main_try w args) as [ev [out | e]]; cbn [snd].
    + split; eauto.
    + split; [discriminate | intros (ev' & out & Hrun); discriminate Hrun].
  - rewrite main_eq. destruct (snd (main_try w args)); auto.
  - intros ev out Hrun.
    destruct (main_try_ok_inv w args ev out Hrun) as (ev' & img & ->).
    rewrite main_eq, Hrun. cbn [fst snd].
    exists (debug_banner args ++ ev'), img. now rewrite app_assoc.
  - intros Hex.
    destruct (Hraise _ _ (main_try_missing w args Hex)) as (Hcode & Herr & _).
    split; [exact Hcode | apply Herr; now left].
  - intros e Hex Hopen.
    destruct (Hraise _ _ (main_try_unreadable w args e Hex Hopen))
      as (Hcode & Herr & _).
    split; [exact Hcode | apply Herr; now right].
Qed.

(** On the sample machine, a file that is not there. *)
Lemma main_exit_code_witness :
  snd (main (H := Ref.ref_raster) Ref.photo_world
         (mkArgs "nothing.png" 100 (0, 0, 255) 128 2 None false)) = 1 /\
  In (PrintErr "Error: Input file not found: nothing.png")
     (fst (main (H := Ref.ref_raster) Ref.photo_world
             (mkArgs "nothing.png" 100 (0, 0, 255) 128 2 None false))).
Proof.
  exact (proj1 (proj2 (proj2 (proj2 (proj2
           (main_exit_code (H := Ref.ref_raster) Ref.photo_world
              (mkArgs "nothing.png" 100 (0, 0, 255) 128 2 None false))))))
           eq_refl).
Defined.

(* ================================================================== *)
(** * Further properties of the code *)

(** ** More on column labels *)

(** X1: [get_column_label] returns a label exactly for the indices from
    -65 up to 28965248.  Outside them the first [chr] raises: [ValueError]
    while its argument is still a C [int] (indices from -2147483713 up to
    -65, and from 28965248 up to 55834573184), [OverflowError] beyond.  A
    negative index that has a label has a single character that is no
    letter. *)
Theorem get_column_label_domain (index : Z) :
  ((exists s, get_column_label index = Ok s) <-> -65 <= index < label_limit) /\
  (-2147483713 <= index < -65 \/ label_limit <= index < label_overflow_limit ->
   get_column_label index = Raise chr_range_error) /\
  (index < -2147483713 \/ label_overflow_limit <= index ->
   get_column_label index = Raise chr_overflow_error) /\
  (-65 <= index < 0 ->
   get_column_label index = Ok [65 + index] /\ is_upper (65 + index) = false).
Proof.
  assert (Hneg : -65 <= index < 26 -> get_column_label index = Ok [65 + index]).
  { intros Hi. unfold get_column_label.
    destruct (index <? 26) eqn:E; [| lia]. apply chr_ok. lia. }
  assert (Hlow : -2147483713 <= index < -65 ->
                 get_column_label index = Raise chr_range_error).
  { intros Hi. unfold get_column_label.
    destruct (index <? 26) eqn:E; [| lia]. apply chr_value_error. lia. }
  assert (Hfar : index < -2147483713 ->
                 get_column_label index = Raise chr_overflow_error).
  { intros Hi. unfold get_column_label.
    destruct (index <? 26) eqn:E; [| lia]. apply chr_overflow_error_at. lia. }
  split; [| split; [| split]].
  - split.
    + intros [s Hs].
      destruct (Z_lt_le_dec index (-2147483713)) as [Hf | Hf];
        [rewrite Hfar in Hs by lia; discriminate Hs |].
      destruct (Z_lt_le_dec index (-65)) as [Hl | Hl];
        [rewrite Hlow in Hs by lia; discriminate Hs |].
      destruct (Z_lt_le_dec index label_limit) as [Hh | Hh]; [lia |].
      destruct (label_none index Hh) as [e He]. congruence.
    + intros Hi. destruct (Z_lt_le_dec index 26).
      * exists [65 + index]. apply Hneg. lia.
      * eexists. apply label_two. lia.
  - intros [Hl | Hh]; [apply Hlow, Hl | apply label_value_error, Hh].
  - intros [Hl | Hh]; [apply Hfar, Hl | apply label_overflow_error, Hh].
  - intros Hi. split; [apply Hneg; lia |].
    apply not_true_is_false. rewrite is_upper_iff. lia.
Qed.

(** Index -1 gives "@"; index -66 raises [ValueError], index 55834573184
    [OverflowError]. *)
Lemma get_column_label_domain_witness :
  (get_column_label (-1) = Ok [65 + -1] /\ is_upper (65 + -1) = false) /\
  get_column_label (-66) = Raise chr_range_error /\
  get_column_label 55834573184 = Raise chr_overflow_error.
Proof.
  split; [| split].
  - apply (proj2 (proj2 (proj2 (get_column_label_domain (-1))))). lia.
  - apply (proj1 (proj2 (get_column_label_domain (-66)))). left. lia.
  - apply (proj1 (proj2 (proj2 (get_column_label_domain 55834573184)))).
    right. unfold label_overflow_limit. lia.
Defined.

(** X2: a label is never empty and never longer than two characters: one
    character for an index below 26, two from 26 on. *)
Theorem get_column_label_length (index : Z) (s : str) :
  get_column_label index = Ok s ->
  (index < 26 /\ List.length s = 1%nat) \/
  (26 <= index /\ List.length s = 2%nat).
Proof.
  intros Hs. unfold get_column_label in Hs.
  destruct (index <? 26) eqn:E.
  - left. split; [lia |]. apply chr_ok_inv in Hs as [-> _]. reflexivity.
  - right. split; [lia |].
    apply bind_ok_inv in Hs as (c1 & H1 & Hs).
    apply bind_ok_inv in Hs as (c2 & H2 & Hs).
    apply chr_ok_inv in H1 as [-> _]. apply chr_ok_inv in H2 as [-> _].
    injection Hs as <-. reflexivity.
Qed.

(** Index 26: "AA", of length two. *)
Lemma get_column_label_length_witness :
  get_column_label 26 = Ok (lit "AA") /\
  ((26 < 26 /\ List.length (lit "AA") = 1%nat) \/
   (26 <= 26 /\ List.length (lit "AA") = 2%nat)).
Proof.
  split; [reflexivity |].
  apply (get_column_label_length 26 (lit "AA")). reflexivity.
Defined.

(** X3: labels grow with the index: of two indices that have labels,
    the smaller has the label that comes first (shorter, or of the same
    length and smaller from the left). *)
Theorem get_column_label_order (i j : Z) (s t : str) :
  i < j ->
  get_column_label i = Ok s -> get_column_label j = Ok t ->
  label_lt s t.
Proof.
  intros Hij Hs Ht.
  assert (shape : forall k u, get_column_label k = Ok u ->
            (k < 26 /\ u = [65 + k]) \/
            (26 <= k /\ u = [65 + k / 26 - 1; 65 + k mod 26])).
  { intros k u Hu. unfold get_column_label in Hu.
    destruct (k <? 26) eqn:E.
    - left. split; [lia |]. apply chr_ok_inv in Hu as [-> _]. reflexivity.
    - right. split; [lia |].
      apply bind_ok_inv in Hu as (c1 & H1 & Hu).
      apply bind_ok_inv in Hu as (c2 & H2 & Hu).
      apply chr_ok_inv in H1 as [-> _]. apply chr_ok_inv in H2 as [-> _].
      cbn [app] in Hu. congruence. }
  destruct (shape i s Hs) as [[Hi ->] | [Hi ->]];
    destruct (shape j t Ht) as [[Hj ->] | [Hj ->]]; unfold label_lt.
  - right. split; [reflexivity |]. cbn [lex_lt]. left. lia.
  - left. cbn [List.length]. lia.
  - lia.
  - right. split; [reflexivity |]. cbn [lex_lt].
    pose proof (Z.div_mod i 26 ltac:(lia)).
    pose proof (Z.div_mod j 26 ltac:(lia)).
    pose proof (Z.mod_pos_bound i 26 ltac:(lia)).
    pose proof (Z.mod_pos_bound j 26 ltac:(lia)).
    destruct (Z_lt_le_dec (i / 26) (j / 26)) as [Hq | Hq].
    + left. lia.
    + right. split; [lia |]. left. lia.
Qed.

(** "Z" (index 25) comes before "AA" (index 26), and "AZ" (51) before
    "BA" (52). *)
Lemma get_column_label_order_witness :
  label_lt (lit "Z") (lit "AA") /\ label_lt (lit "AZ") (lit "BA").
Proof.
  split.
  - apply (get_column_label_order 25 26); [lia | reflexivity | reflexivity].
  - apply (get_column_label_order 51 52); [lia | reflexivity | reflexivity].
Defined.

(** ** More on fonts and on when [draw_grid] returns *)

Lemma try_fonts_first (fs : Fonts) (n : Z) (before : list string) (p : string)
    (after : list string) (f : Font) :
  (forall q, In q before -> truetype fs q n = None) ->
  truetype fs p n = Some f ->
  try_fonts fs (before ++ p :: after) n = ([], Ok f).
Proof.
  intros Hbefore Hp. induction before as [| q before IH]; simpl.
  - now rewrite Hp.
  - rewrite (Hbefore q (or_introl eq_refl)). apply IH.
    intros r Hr. apply Hbefore. now right.
Qed.

Lemma try_fonts_none (fs : Fonts) (n : Z) (paths : list string) :
  (forall q, In q paths -> truetype fs q n = None) ->
  try_fonts fs paths n = ([font_warning], Ok (load_default fs)).
Proof.
  intros Hall. induction paths as [| q paths IH]; simpl.
  - reflexivity.
  - rewrite (Hall q (or_introl eq_refl)). apply IH.
    intros r Hr. apply Hall. now right.
Qed.

(** X4: the font is the first of Arial.ttf and the three system fonts
    that loads, found without a warning; when none loads it is the
    default font, with one warning. *)
Theorem load_font_fallback (fs : Fonts) (n : Z) :
  (forall before p after f,
     font_candidates = before ++ p :: after ->
     (forall q, In q before -> truetype fs q n = None) ->
     truetype fs p n = Some f ->
     load_font fs n = ([], Ok f)) /\
  ((forall q, In q font_candidates -> truetype fs q n = None) ->
   load_font fs n = ([font_warning], Ok (load_default fs))).
Proof.
  split.
  - intros before p after f Hsplit Hbefore Hp. unfold load_font.
    destruct before as [| q before]; simpl in Hsplit;
      injection Hsplit as Hq Hrest.
    + subst p. now rewrite Hp.
    + subst q. rewrite (Hbefore "Arial.ttf"%string (or_introl eq_refl)).
      rewrite Hrest. apply try_fonts_first; [| exact Hp].
      intros r Hr. apply Hbefore. now right.
  - intros Hall. unfold load_font.
    rewrite (Hall "Arial.ttf"%string (or_introl eq_refl)).
    apply try_fonts_none. intros q Hq. apply Hall. now right.
Qed.

(** With no TrueType font at all: the default font and the warning. *)
Lemma load_font_fallback_witness :
  load_font Ref.no_truetype 20 = ([font_warning], Ok Ref.cell_font).
Proof.
  apply (proj2 (load_font_fallback Ref.no_truetype 20)).
  intros q _. reflexivity.
Defined.

(** X5: a spacing of 0 is not refused beforehand: [draw_grid] raises
    [ZeroDivisionError] at [height // spacing], after it has looked for a
    font (of size 12) and before it logs or draws anything. *)
Theorem draw_grid_zero_spacing `{Rasterizer} (fs : Fonts) (image : Image)
    (color : Z * Z * Z) (op th : Z) :
  0 <= fst (size image) /\ 0 <= snd (size image) ->
  draw_grid fs image 0 color op th
  = (fst (load_font fs 12), Raise zero_division_error).
Proof.
  intros Hsz.
  destruct (load_font_ok fs (font_size 0)) as (evf & font & Hfont).
  rewrite (draw_grid_run fs image 0 color op th Hsz evf font Hfont).
  change (font_size 0) with 12 in Hfont. now rewrite Hfont.
Qed.

(** On the sample image: the font warning, then the exception. *)
Lemma draw_grid_zero_spacing_witness :
  draw_grid (H := Ref.ref_raster) Ref.no_truetype (Ref.solid 30 30 Ref.black)
    0 (0, 0, 255) 128 2
  = ([font_warning], Raise zero_division_error).
Proof.
  apply (draw_grid_zero_spacing (H := Ref.ref_raster) Ref.no_truetype
           (Ref.solid 30 30 Ref.black) (0, 0, 255) 128 2).
  cbn [Ref.solid size fst snd]. lia.
Defined.

(** X6: on an image of non-negative size, [draw_grid] returns an image
    exactly when the spacing is negative, or positive with the width at
    most [spacing * 28965248] (every column that gets a label has one). *)
Theorem draw_grid_returns_iff `{Rasterizer} (fs : Fonts) (image : Image)
    (S : Z) (color : Z * Z * Z) (op th : Z) :
  0 <= fst (size image) /\ 0 <= snd (size image) ->
  ((exists ev result, draw_grid fs image S color op th = (ev, Ok result)) <->
   S < 0 \/ (0 < S /\ fst (size image) <= S * label_limit)).
Proof.
  intros Hsz.
  destruct (load_font_ok fs (font_size S)) as (evf & font & Hfont).
  rewrite (draw_grid_run fs image S color op th Hsz evf font Hfont).
  split.
  - intros (ev & result & Hrun).
    destruct (S =? 0) eqn:E; [discriminate Hrun |].
    destruct (Z_lt_le_dec S 0) as [Hneg | Hpos]; [now left | right].
    split; [lia |].
    destruct (Z_lt_le_dec (S * label_limit) (fst (size image))) as [Hwide | ?];
      [| assumption].
    rewrite (grid_cmds_too_wide image S color op th font) in Hrun by lia.
    discriminate Hrun.
  - intros [Hneg | [Hpos Hfit]].
    + destruct (S =? 0) eqn:E; [lia |].
      rewrite (grid_cmds_negative_spacing image S color op th Hsz font Hneg).
      destruct (composite_returns image []) as [result ->]. eauto.
    + destruct (S =? 0) eqn:E; [lia |].
      destruct (grid_cmds_total font (fst (size image)) (snd (size image)) S
                  (color, op) th Hpos Hfit) as [cmds ->].
      destruct (composite_returns image cmds) as [result ->]. eauto.
Qed.

(** The sample image with spacing 10 is drawn; one of width 28965249
    with spacing 1 is not. *)
Lemma draw_grid_returns_iff_witness :
  (exists ev result,
     draw_grid (H := Ref.ref_raster) Ref.no_truetype (Ref.solid 30 30 Ref.black)
       10 (0, 0, 255) 128 2 = (ev, Ok result)) /\
  ~ (exists ev result,
       draw_grid (H := Ref.ref_raster) Ref.no_truetype
         (Ref.solid 28965249 1 Ref.black) 1 (0, 0, 255) 128 2
       = (ev, Ok result)).
Proof.
  split.
  - apply (draw_grid_returns_iff (H := Ref.ref_raster) Ref.no_truetype
             (Ref.solid 30 30 Ref.black) 10 (0, 0, 255) 128 2).
    + cbn [Ref.solid size fst snd]. lia.
    + right. cbn [Ref.solid size fst snd]. unfold label_limit. lia.
  - intros Hrun.
    apply (draw_grid_returns_iff (H := Ref.ref_raster) Ref.no_truetype
             (Ref.solid 28965249 1 Ref.black) 1 (0, 0, 255) 128 2) in Hrun.
    + cbn [Ref.solid size fst snd] in Hrun. unfold label_limit in Hrun. lia.
    + cbn [Ref.solid size fst snd]. lia.
Defined.

(** X7: a negative spacing is not refused either: no line and no label
    is drawn, and the image returned is the input, pixel for pixel. *)
Theorem draw_grid_negative_spacing `{Rasterizer} (fs : Fonts) (image : Image)
    (S : Z) (color : Z * Z * Z) (op th : Z) :
  0 <= fst (size image) /\ 0 <= snd (size image) ->
  S < 0 ->
  draw_grid_cmds fs image S color op th = Ok [] /\
  exists ev result,
    draw_grid fs image S color op th = (ev, Ok result) /\
    size result = size image /\
    forall p, getpixel result p = getpixel image p.
Proof.
  intros Hsz Hneg.
  assert (Hcmds : draw_grid_cmds fs image S color op th = Ok []).
  { unfold draw_grid_cmds.
    destruct (load_font_ok fs (font_size S)) as (evf & font & ->).
    apply (grid_cmds_negative_spacing image S color op th Hsz font Hneg). }
  split; [exact Hcmds |].
  assert (Hret : exists ev result,
            draw_grid fs image S color op th = (ev, Ok result)).
  { destruct (load_font_ok fs (font_size S)) as (evf & font & Hfont).
    rewrite (draw_grid_run fs image S color op th Hsz evf font Hfont).
    destruct (S =? 0) eqn:E; [lia |].
    rewrite (grid_cmds_negative_spacing image S color op th Hsz font Hneg).
    destruct (composite_returns image []) as [result ->]. eauto. }
  destruct Hret as (ev & result & Hrun).
  exists ev, result. split; [exact Hrun |]. split.
  - apply draw_grid_pixels in Hrun as (_ & _ & _ & _ & _ & Hs & _). exact Hs.
  - intros p. rewrite (draw_grid_pixel_value _ _ _ _ _ _ _ _ _ p Hrun Hcmds).
    reflexivity.
Qed.

(** The sample image with spacing -10 comes back as it is. *)
Lemma draw_grid_negative_spacing_witness :
  draw_grid_cmds Ref.no_truetype (Ref.solid 30 30 Ref.black) (-10) (0, 0, 255)
    128 2 = Ok [] /\
  exists ev result,
    draw_grid (H := Ref.ref_raster) Ref.no_truetype (Ref.solid 30 30 Ref.black)
      (-10) (0, 0, 255) 128 2 = (ev, Ok result) /\
    size result = (30, 30) /\
    forall p, getpixel result p = Ref.black.
Proof.
  apply (draw_grid_negative_spacing (H := Ref.ref_raster) Ref.no_truetype
           (Ref.solid 30 30 Ref.black) (-10) (0, 0, 255) 128 2).
  - cbn [Ref.solid size fst snd]. lia.
  - lia.
Defined.

(** X8: on an image wider than [spacing * 28965248] the column loop
    reaches an index with no label, and [draw_grid] ends with the
    [ValueError] of [chr], after its two lines of information. *)
Theorem draw_grid_too_wide `{Rasterizer} (fs : Fonts) (image : Image)
    (S : Z) (color : Z * Z * Z) (op th : Z) :
  0 <= fst (size image) /\ 0 <= snd (size image) ->
  0 < S -> S * label_limit < fst (size image) ->
  draw_grid fs image S color op th
  = (fst (load_font fs (font_size S)) ++ grid_log (size image) S th,
     Raise chr_range_error).
Proof.
  intros Hsz Hpos Hwide.
  destruct (load_font_ok fs (font_size S)) as (evf & font & Hfont).
  rewrite (draw_grid_run fs image S color op th Hsz evf font Hfont).
  destruct (S =? 0) eqn:E; [lia |].
  rewrite (grid_cmds_too_wide image S color op th font Hpos Hwide).
  now rewrite Hfont.
Qed.

(** An image of 28965249 x 1 pixels with spacing 1. *)
Lemma draw_grid_too_wide_witness :
  snd (draw_grid (H := Ref.ref_raster) Ref.no_truetype
         (Ref.solid 28965249 1 Ref.black) 1 (0, 0, 255) 128 2)
  = Raise chr_range_error.
Proof.
  rewrite (draw_grid_too_wide (H := Ref.ref_raster) Ref.no_truetype
             (Ref.solid 28965249 1 Ref.black) 1 (0, 0, 255) 128 2).
  - reflexivity.
  - cbn [Ref.solid size fst snd]. lia.
  - lia.
  - cbn [Ref.solid size fst snd]. unfold label_limit. lia.
Defined.

(** X9: a run of [draw_grid] that returns has logged, after the warning
    of the font search if any, exactly two lines: the row and column
    counts [height // spacing + 1] and [width // spacing + 1], and the
    spacing and thickness. *)
Theorem draw_grid_log `{Rasterizer} (fs : Fonts) (image : Image) (S : Z)
    (color : Z * Z * Z) (op th : Z) (ev : list Event) (result : Image) :
  draw_grid fs image S color op th = (ev, Ok result) ->
  ev = fst (load_font fs (font_size S)) ++ grid_log (size image) S th.
Proof.
  intros Hrun.
  assert (Hsz : 0 <= fst (size image) /\ 0 <= snd (size image)).
  { apply draw_grid_ok_inv in Hrun as (overlay & _ & Hnew & _).
    apply Image_new_ok_inv in Hnew. tauto. }
  destruct (load_font_ok fs (font_size S)) as (evf & font & Hfont).
  rewrite (draw_grid_run fs image S color op th Hsz evf font Hfont) in Hrun.
  destruct (S =? 0); [discriminate Hrun |].
  injection Hrun as <- _. now rewrite Hfont.
Qed.

(** The log of the sample run. *)
Lemma draw_grid_log_witness :
  exists ev result,
    draw_grid (H := Ref.ref_raster) Ref.no_truetype (Ref.solid 30 30 Ref.black)
      10 (0, 0, 255) 255 2 = (ev, Ok result) /\
    ev = [ font_warning;
           Log INFO "Creating grid with 4 rows and 4 columns";
           Log INFO "Grid spacing: 10px, Line thickness: 2px" ].
Proof.
  destruct (sample_run_returns 255) as (ev & result & Hrun).
  exists ev, result. split; [exact Hrun |].
  exact (draw_grid_log (H := Ref.ref_raster) _ _ _ _ _ _ ev result Hrun).
Defined.

(** ** Counting the calls *)

Lemma range_succ (n : Z) : 0 <= n -> range (n + 1) = range n ++ [n].
Proof.
  intros Hn. unfold range.
  replace (Z.to_nat (n + 1)) with (Datatypes.S (Z.to_nat n)) by lia.
  rewrite seq_S, map_app. simpl. now rewrite Z2Nat.id by lia.
Qed.

Lemma for_each_app_inv {A B} (body : A -> Result (list B)) (xs ys : list A)
    (l : list B) :
  for_each (xs ++ ys) body = Ok l ->
  exists l1 l2,
    for_each xs body = Ok l1 /\ for_each ys body = Ok l2 /\ l = l1 ++ l2.
Proof.
  revert l. induction xs as [| x xs IH]; simpl; intros l Hl.
  - exists [], l. auto.
  - apply bind_ok_inv in Hl as (c & Hc & Hl).
    apply bind_ok_inv in Hl as (cs & Hcs & Hl).
    destruct (IH cs Hcs) as (l1 & l2 & H1 & H2 & ->).
    exists (c ++ l1), l2. rewrite Hc, H1. cbn [bind].
    split; [reflexivity |]. split; [assumption |].
    rewrite <- app_assoc. congruence.
Qed.

(** A loop of [n] turns that each make calls of measure [v] makes calls
    of measure [v * n], for a measure that adds up over lists. *)
Lemma for_each_measure {B} (m : list B -> Z) (v : Z)
    (body : Z -> Result (list B)) :
  m [] = 0 -> (forall a b, m (a ++ b) = m a + m b) ->
  forall (k : nat) (l : list B),
    (forall i c, 0 <= i < Z.of_nat k -> body i = Ok c -> m c = v) ->
    for_each (range (Z.of_nat k)) body = Ok l ->
    m l = v * Z.of_nat k.
Proof.
  intros Hnil Happ. induction k as [| k IH]; intros l Hturn Hl.
  - cbn in Hl. injection Hl as <-. lia.
  - replace (Z.of_nat (Datatypes.S k)) with (Z.of_nat k + 1) in Hl by lia.
    rewrite range_succ in Hl by lia.
    apply for_each_app_inv in Hl as (l1 & l2 & H1 & H2 & ->).
    rewrite Happ, (IH l1); [| intros i c Hi; apply Hturn; lia | exact H1].
    cbn in H2. apply bind_ok_inv in H2 as (c & Hc & H2).
    injection H2 as <-. rewrite app_nil_r.
    rewrite (Hturn (Z.of_nat k) c) by (lia || assumption). lia.
Qed.

(** The calls of a loop over [0 .. d // S], of which the turns with
    [i * S < d] make calls of measure [v] and the others none. *)
Lemma loop_measure (m : list DrawCmd -> Z) (v d S : Z)
    (body : Z -> Result (list DrawCmd)) (l : list DrawCmd) :
  m [] = 0 -> (forall a b, m (a ++ b) = m a + m b) ->
  0 < S -> 0 <= d ->
  (forall i c, body i = Ok c ->
     (d <= i * S /\ c = []) \/ (i * S < d /\ m c = v)) ->
  for_each (range (d / S + 1)) body = Ok l ->
  m l = v * line_count d S.
Proof.
  intros Hnil Happ HS Hd Hturn Hl.
  assert (Hq : 0 <= d / S) by (apply Z.div_pos; lia).
  pose proof (Z.div_mod d S ltac:(lia)) as Edm.
  pose proof (Z.mod_pos_bound d S HS) as Bm.
  rewrite range_succ in Hl by assumption.
  apply for_each_app_inv in Hl as (l1 & l2 & H1 & H2 & ->).
  rewrite Happ. rewrite <- (Z2Nat.id (d / S)) in H1 by assumption.
  assert (E1 : m l1 = v * (d / S)).
  { rewrite (for_each_measure m v body Hnil Happ (Z.to_nat (d / S)) l1).
    - now rewrite Z2Nat.id by assumption.
    - intros i c Hi Hc. rewrite Z2Nat.id in Hi by assumption.
      destruct (Hturn i c Hc) as [[Hge _] | [_ Hm]]; [nia | exact Hm].
    - exact H1. }
  rewrite E1.
  cbn in H2. apply bind_ok_inv in H2 as (c & Hc & H2).
  injection H2 as <-. rewrite app_nil_r. unfold line_count.
  destruct (Hturn (d / S) c Hc) as [[Hge ->] | [Hlt Hm]].
  - rewrite Hnil. destruct (d mod S =? 0) eqn:E; nia.
  - rewrite Hm. destruct (d mod S =? 0) eqn:E; nia.
Qed.

(** The calls counted: vertical lines, horizontal lines, lines, all. *)
Lemma draw_grid_cmds_count (fs : Fonts) (image : Image) (S : Z)
    (color : Z * Z * Z) (op th : Z) (cmds : list DrawCmd) :
  0 < S -> 0 <= fst (size image) /\ 0 <= snd (size image) ->
  draw_grid_cmds fs image S color op th = Ok cmds ->
  let W := fst (size image) in
  let Ht := snd (size image) in
  Z.of_nat (List.length (filter (is_vertical_line Ht) cmds)) = line_count W S /\
  Z.of_nat (List.length (filter (is_horizontal_line W) cmds)) = line_count Ht S /\
  Z.of_nat (List.length (filter is_line cmds))
  = line_count W S + line_count Ht S /\
  Z.of_nat (List.length cmds) = 3 * (line_count W S + line_count Ht S).
Proof.
  intros HS [HW HH] Hcmds W Ht. unfold draw_grid_cmds in Hcmds.
  destruct (load_font_ok fs (font_size S)) as (ev & font & Hfont).
  rewrite Hfont in Hcmds.
  apply grid_cmds_inv in Hcmds as (_ & rows & cols & Hrows & Hcols & ->).
  fold W Ht in Hrows, Hcols, HW, HH.
  pose (mv := fun l : list DrawCmd =>
                Z.of_nat (List.length (filter (is_vertical_line Ht) l))).
  pose (mh := fun l : list DrawCmd =>
                Z.of_nat (List.length (filter (is_horizontal_line W) l))).
  pose (m1 := fun l : list DrawCmd => Z.of_nat (List.length (filter is_line l))).
  pose (m3 := fun l : list DrawCmd => Z.of_nat (List.length l)).
  assert (Av : forall a b, mv (a ++ b) = mv a + mv b).
  { intros a b. unfold mv. rewrite filter_app, length_app. lia. }
  assert (Ah : forall a b, mh (a ++ b) = mh a + mh b).
  { intros a b. unfold mh. rewrite filter_app, length_app. lia. }
  assert (A1 : forall a b, m1 (a ++ b) = m1 a + m1 b).
  { intros a b. unfold m1. rewrite filter_app, length_app. lia. }
  assert (A3 : forall a b, m3 (a ++ b) = m3 a + m3 b).
  { intros a b. unfold m3. rewrite length_app. lia. }
  assert (Hr : forall i c, row_cmds font W Ht S (color, op) th i = Ok c ->
            (Ht <= i * S /\ c = []) \/
            (i * S < Ht /\ mv c = 0 /\ mh c = 1 /\ m1 c = 1 /\ m3 c = 3)).
  { intros i c Hc. apply row_cmds_shape in Hc as [[? ->] | [Hlt ->]]; auto.
    right. split; [exact Hlt |].
    unfold mv, mh, m1, m3.
    cbn [filter is_vertical_line is_horizontal_line is_line List.length].
    assert (E : (i * S =? Ht) = false) by (apply Z.eqb_neq; lia).
    rewrite E, !Z.eqb_refl, !andb_false_r. cbn [andb List.length]. auto. }
  assert (Hc : forall i c, col_cmds font W Ht S (color, op) th i = Ok c ->
            (W <= i * S /\ c = []) \/
            (i * S < W /\ mv c = 1 /\ mh c = 0 /\ m1 c = 1 /\ m3 c = 3)).
  { intros i c Hc.
    apply col_cmds_shape in Hc as [[? ->] | [Hlt (l & _ & ->)]]; auto.
    right. split; [exact Hlt |].
    unfold mv, mh, m1, m3.
    cbn [filter is_vertical_line is_horizontal_line is_line List.length].
    assert (E : (i * S =? W) = false) by (apply Z.eqb_neq; lia).
    rewrite E, !Z.eqb_refl, !andb_false_r. cbn [andb List.length]. auto. }
  unfold horizontal_cmds in Hrows. unfold vertical_cmds in Hcols.
  fold (mv (rows ++ cols)). fold (mh (rows ++ cols)).
  fold (m1 (rows ++ cols)). fold (m3 (rows ++ cols)).
  rewrite Av, Ah, A1, A3.
  rewrite (loop_measure mv 0 Ht S _ rows eq_refl Av HS HH) by
    (exact Hrows || (intros i c E; destruct (Hr i c E); tauto)).
  rewrite (loop_measure mv 1 W S _ cols eq_refl Av HS HW) by
    (exact Hcols || (intros i c E; destruct (Hc i c E); tauto)).
  rewrite (loop_measure mh 1 Ht S _ rows eq_refl Ah HS HH) by
    (exact Hrows || (intros i c E; destruct (Hr i c E); tauto)).
  rewrite (loop_measure mh 0 W S _ cols eq_refl Ah HS HW) by
    (exact Hcols || (intros i c E; destruct (Hc i c E); tauto)).
  rewrite (loop_measure m1 1 Ht S _ rows eq_refl A1 HS HH) by
    (exact Hrows || (intros i c E; destruct (Hr i c E); tauto)).
  rewrite (loop_measure m1 1 W S _ cols eq_refl A1 HS HW) by
    (exact Hcols || (intros i c E; destruct (Hc i c E); tauto)).
  rewrite (loop_measure m3 3 Ht S _ rows eq_refl A3 HS HH) by
    (exact Hrows || (intros i c E; destruct (Hr i c E); tauto)).
  rewrite (loop_measure m3 3 W S _ cols eq_refl A3 HS HW) by
    (exact Hcols || (intros i c E; destruct (Hc i c E); tauto)).
  repeat split; lia.
Qed.

(** X10: a run of [draw_grid] with a positive spacing that returns has
    drawn, on the overlay the image returned is composed with,
    [W div S + (0 if S divides W else 1)] vertical lines and as many
    horizontal lines for [H], three calls (line, background, text) for
    each line and no other call; the numbers of columns and rows it has
    logged, [W // S + 1] and [H // S + 1], are those counts on a side
    whose length the spacing does not divide, and one more on a side
    whose length it divides. *)
Theorem grid_call_count `{Rasterizer} (fs : Fonts) (image : Image) (S : Z)
    (color : Z * Z * Z) (op th : Z) (ev : list Event) (result : Image) :
  0 < S ->
  draw_grid fs image S color op th = (ev, Ok result) ->
  let W := fst (size image) in
  let Ht := snd (size image) in
  exists cmds rows_logged cols_logged,
    draw_grid_cmds fs image S color op th = Ok cmds /\
    (forall p, getpixel result p
               = alpha_composite_px (getpixel image p)
                   (getpixel (fold_left exec cmds (blank_overlay (size image)))
                      p)) /\
    In (Log INFO ("Creating grid with " ++ string_of_int rows_logged
                  ++ " rows and " ++ string_of_int cols_logged ++ " columns"))
       ev /\
    Z.of_nat (List.length (filter (is_vertical_line Ht) cmds))
    = line_count W S /\
    Z.of_nat (List.length (filter (is_horizontal_line W) cmds))
    = line_count Ht S /\
    Z.of_nat (List.length (filter is_line cmds))
    = line_count W S + line_count Ht S /\
    Z.of_nat (List.length cmds) = 3 * (line_count W S + line_count Ht S) /\
    cols_logged = line_count W S + (if W mod S =? 0 then 1 else 0) /\
    rows_logged = line_count Ht S + (if Ht mod S =? 0 then 1 else 0).
Proof.
  intros HS Hrun W Ht.
  destruct (draw_grid_calls _ _ _ _ _ _ _ _ Hrun)
    as (HW & HH & cmds & Hcmds & Hpx).
  exists cmds, (Ht / S + 1), (W / S + 1).
  split; [exact Hcmds |]. split; [exact Hpx |]. split.
  { destruct (load_font_ok fs (font_size S)) as (evf & font & Hfont).
    rewrite (draw_grid_run fs image S color op th (conj HW HH) evf font Hfont)
      in Hrun.
    destruct (S =? 0) eqn:E; [discriminate Hrun |].
    assert (Eev : ev = evf ++ grid_log (size image) S th) by congruence.
    rewrite Eev. apply in_app_iff. right. left. reflexivity. }
  destruct (draw_grid_cmds_count fs image S color op th cmds HS (conj HW HH)
              Hcmds) as (Cv & Ch & C1 & C3).
  split; [exact Cv |]. split; [exact Ch |]. split; [exact C1 |].
  split; [exact C3 |].
  unfold line_count.
  split; [destruct (W mod S =? 0) | destruct (Ht mod S =? 0)]; lia.
Qed.

(** The sample run, on a 30 x 30 image with spacing 10: 3 vertical and 3
    horizontal lines, 18 calls; 4 rows and 4 columns are logged. *)
Lemma grid_call_count_witness :
  0 < 10 /\
  exists ev result cmds,
    draw_grid (H := Ref.ref_raster) Ref.no_truetype (Ref.solid 30 30 Ref.black)
      10 (0, 0, 255) 255 2 = (ev, Ok result) /\
    draw_grid_cmds Ref.no_truetype (Ref.solid 30 30 Ref.black) 10 (0, 0, 255)
      255 2 = Ok cmds /\
    In (Log INFO "Creating grid with 4 rows and 4 columns") ev /\
    Z.of_nat (List.length (filter (is_vertical_line 30) cmds)) = 3 /\
    Z.of_nat (List.length (filter (is_horizontal_line 30) cmds)) = 3 /\
    Z.of_nat (List.length cmds) = 18.
Proof.
  split; [lia |].
  destruct (sample_run_returns 255) as (ev & result & Hrun).
  destruct (grid_call_count (H := Ref.ref_raster) Ref.no_truetype
              (Ref.solid 30 30 Ref.black) 10 (0, 0, 255) 255 2 ev result
              ltac:(lia) Hrun)
    as (cmds & r & c & Hcmds & _ & Hlog & Cv & Ch & _ & C3 & Ec & Er).
  exists ev, result, cmds.
  split; [exact Hrun |]. split; [exact Hcmds |].
  cbn [Ref.solid size fst snd] in Cv, Ch, C3, Ec, Er.
  change (line_count 30 10) with 3 in Cv, Ch, C3, Ec, Er.
  change (30 mod 10 =? 0) with true in Ec, Er.
  cbv iota in Ec, Er. subst r c.
  split; [exact Hlog |]. split; [exact Cv |]. split; [exact Ch | exact C3].
Defined.

(** ** More on labels and on the composite *)

Lemma for_each_turn {A B} (body : A -> Result (list B)) (xs : list A)
    (l : list B) (x : A) :
  for_each xs body = Ok l -> In x xs ->
  exists c, body x = Ok c /\ forall b, In b c -> In b l.
Proof.
  intros Hl Hx. pose proof (for_each_In body xs l Hl) as HIn.
  apply for_each_ok_inv in Hl as (ls & Hls & _).
  assert (Hc : exists c, body x = Ok c).
  { clear - Hls Hx. induction Hls as [| y c ys ls Hc Hls IH].
    - contradiction.
    - destruct Hx as [-> | Hx]; eauto. }
  destruct Hc as [c Hc]. exists c. split; [exact Hc |].
  intros b Hb. apply HIn. eauto.
Qed.

(** The texts among the drawing calls: for each horizontal line at
    [y = i * S], the decimal numeral of [i + 1] at [(10, y + thickness + 2)],
    and for each vertical line at [x = i * S], the column label of [i] at
    [(x + thickness + 2, 10)]; all in opaque black, in the font found. *)
Lemma draw_grid_cmds_labels (fs : Fonts) (image : Image) (S : Z) (color : Z * Z * Z)
    (op th : Z) (cmds : list DrawCmd) (evf : list Event) (font : Font) :
  load_font fs (font_size S) = (evf, Ok font) ->
  draw_grid_cmds fs image S color op th = Ok cmds ->
  forall xy text fill f,
    In (Text xy text fill f) cmds <->
    fill = (0, 0, 0, 255) /\ f = font /\
    ((exists i, 0 <= i <= snd (size image) / S /\ i * S < snd (size image) /\
                xy = (10, i * S + th + 2) /\ text = str_of_int (i + 1)) \/
     (exists i, 0 <= i <= fst (size image) / S /\ i * S < fst (size image) /\
                xy = (i * S + th + 2, 10) /\ get_column_label i = Ok text)).
Proof.
  intros Hfont Hcmds xy text fill f. unfold draw_grid_cmds in Hcmds.
  rewrite Hfont in Hcmds.
  apply grid_cmds_inv in Hcmds as (_ & rows & cols & Hrows & Hcols & ->).
  unfold horizontal_cmds in Hrows. unfold vertical_cmds in Hcols.
  rewrite in_app_iff, (for_each_In _ _ _ Hrows), (for_each_In _ _ _ Hcols).
  split.
  - intros [(i & c & Hi & Hc & Hin) | (i & c & Hi & Hc & Hin)];
      apply range_In in Hi.
    + apply row_cmds_shape in Hc as [[_ ->] | [Hlt ->]]; [contradiction |].
      destruct Hin as [E | [E | [E | []]]]; try discriminate E.
      injection E as <- <- <- <-. split; [reflexivity |].
      split; [reflexivity |]. left. exists i. repeat split; lia.
    + apply col_cmds_shape in Hc as [[_ ->] | [Hlt (l & Hl & ->)]];
        [contradiction |].
      destruct Hin as [E | [E | [E | []]]]; try discriminate E.
      injection E as <- <- <- <-. split; [reflexivity |].
      split; [reflexivity |]. right. exists i. repeat split; solve [lia | auto].
  - intros (-> & -> & [(i & Hi & Hlt & -> & ->) | (i & Hi & Hlt & -> & Hl)]).
    + left. assert (Hr : In i (range (snd (size image) / S + 1)))
        by (apply range_In; lia).
      destruct (for_each_turn _ _ _ i Hrows Hr) as (c & Hc & _).
      exists i, c. split; [exact Hr |]. split; [exact Hc |].
      apply row_cmds_shape in Hc as [[Hge _] | [_ ->]]; [lia |].
      right; right; now left.
    + right. assert (Hr : In i (range (fst (size image) / S + 1)))
        by (apply range_In; lia).
      destruct (for_each_turn _ _ _ i Hcols Hr) as (c & Hc & _).
      exists i, c. split; [exact Hr |]. split; [exact Hc |].
      apply col_cmds_shape in Hc as [[Hge _] | [_ (l & Hl' & ->)]]; [lia |].
      assert (l = text) by congruence. subst l.
      right; right; now left.
Qed.

(** X11: a run of [draw_grid] that returns has drawn, on the overlay the
    image returned is composed with, exactly these texts: for each
    horizontal line at [y = i * S], the decimal numeral of [i + 1] at
    [(10, y + thickness + 2)], and for each vertical line at [x = i * S],
    the column label of [i] at [(x + thickness + 2, 10)]; all in opaque
    black, in the font found. *)
Theorem grid_labels `{Rasterizer} (fs : Fonts) (image : Image) (S : Z)
    (color : Z * Z * Z) (op th : Z) (ev : list Event) (result : Image) :
  draw_grid fs image S color op th = (ev, Ok result) ->
  exists cmds font,
    snd (load_font fs (font_size S)) = Ok font /\
    draw_grid_cmds fs image S color op th = Ok cmds /\
    (forall p, getpixel result p
               = alpha_composite_px (getpixel image p)
                   (getpixel (fold_left exec cmds (blank_overlay (size image)))
                      p)) /\
    forall xy text fill f,
      In (Text xy text fill f) cmds <->
      fill = (0, 0, 0, 255) /\ f = font /\
      ((exists i, 0 <= i <= snd (size image) / S /\ i * S < snd (size image) /\
                  xy = (10, i * S + th + 2) /\ text = str_of_int (i + 1)) \/
       (exists i, 0 <= i <= fst (size image) / S /\ i * S < fst (size image) /\
                  xy = (i * S + th + 2, 10) /\ get_column_label i = Ok text)).
Proof.
  intros Hrun.
  destruct (draw_grid_calls _ _ _ _ _ _ _ _ Hrun)
    as (_ & _ & cmds & Hcmds & Hpx).
  destruct (load_font_ok fs (font_size S)) as (evf & font & Hfont).
  exists cmds, font. split; [now rewrite Hfont |].
  split; [exact Hcmds |]. split; [exact Hpx |].
  exact (draw_grid_cmds_labels fs image S color op th cmds evf font Hfont Hcmds).
Qed.

(** The sample run labels its third row "3" and its third column "C". *)
Lemma grid_labels_witness :
  exists ev result cmds,
    draw_grid (H := Ref.ref_raster) Ref.no_truetype (Ref.solid 30 30 Ref.black)
      10 (0, 0, 255) 255 2 = (ev, Ok result) /\
    draw_grid_cmds Ref.no_truetype (Ref.solid 30 30 Ref.black) 10 (0, 0, 255)
      255 2 = Ok cmds /\
    In (Text (10, 24) (lit "3") (0, 0, 0, 255) Ref.cell_font) cmds /\
    In (Text (24, 10) (lit "C") (0, 0, 0, 255) Ref.cell_font) cmds.
Proof.
  destruct (sample_run_returns 255) as (ev & result & Hrun).
  destruct (grid_labels (H := Ref.ref_raster) Ref.no_truetype
              (Ref.solid 30 30 Ref.black) 10 (0, 0, 255) 255 2 ev result Hrun)
    as (cmds & font & Hfont & Hcmds & _ & Hlabels).
  assert (Ef : font = Ref.cell_font).
  { cbn in Hfont. congruence. }
  subst font.
  exists ev, result, cmds. split; [exact Hrun |]. split; [exact Hcmds |].
  split; apply Hlabels; (split; [reflexivity |]); (split; [reflexivity |]).
  - left. exists 2. cbn [Ref.solid size fst snd]. change (30 / 10) with 3.
    repeat split; lia.
  - right. exists 2. cbn [Ref.solid size fst snd]. change (30 / 10) with 3.
    repeat split; lia.
Defined.

Lemma draw_grid_cmds_groups (fs : Fonts) (image : Image) (S : Z)
    (color : Z * Z * Z) (op th : Z) (cmds : list DrawCmd) :
  draw_grid_cmds fs image S color op th = Ok cmds ->
  exists groups, cmds = List.concat groups /\ Forall label_group groups.
Proof.
  intros Hcmds. unfold draw_grid_cmds in Hcmds.
  destruct (load_font_ok fs (font_size S)) as (ev & font & Hfont).
  rewrite Hfont in Hcmds.
  apply grid_cmds_inv in Hcmds as (_ & rows & cols & Hrows & Hcols & ->).
  apply (for_each_groups label_group) in Hrows as (gr & -> & Hgr).
  2:{ intros i c Hc. apply row_cmds_shape in Hc as [[_ ->] | [_ ->]];
        [now left | right]. unfold label_group. do 7 eexists. reflexivity. }
  apply (for_each_groups label_group) in Hcols as (gc & -> & Hgc).
  2:{ intros i c Hc.
      apply col_cmds_shape in Hc as [[_ ->] | [_ (l & _ & ->)]];
        [now left | right]. unfold label_group. do 7 eexists. reflexivity. }
  exists (gr ++ gc). split; [now rewrite concat_app |].
  apply Forall_app. auto.
Qed.

(** X12: a label's background is never an inverted box (it is at least 4
    pixels wide and high, so [draw.rectangle] has nothing to refuse), and
    every pixel a label's glyphs cover lies on the background drawn just
    before it. *)
Theorem label_on_background (fs : Fonts) (image : Image) (S : Z)
    (color : Z * Z * Z) (op th : Z) (cmds : list DrawCmd) :
  draw_grid_cmds fs image S color op th = Ok cmds ->
  (forall box fill, In (Rectangle box fill) cmds ->
     let '(x0, y0, x1, y1) := box in x0 + 4 <= x1 /\ y0 + 4 <= y1) /\
  (forall xy text fill font p,
     In (Text xy text fill font) cmds ->
     glyph_at font xy text p <> 0 ->
     In (Rectangle (bg_box (textbbox xy text font)) (255, 255, 255, 200)) cmds /\
     in_box (bg_box (textbbox xy text font)) p = true).
Proof.
  intros Hcmds.
  apply draw_grid_cmds_groups in Hcmds as (groups & -> & Hg).
  rewrite Forall_forall in Hg. split.
  - intros box fill Hin. apply in_concat in Hin as (g & Hgin & Hin).
    destruct (Hg g Hgin) as (a & b & gc & w & xy & text & f & ->).
    destruct Hin as [E | [E | [E | []]]]; try discriminate E.
    injection E as <- _. unfold bg_box, textbbox.
    pose proof (getbbox_wf f text) as Hwf.
    destruct (getbbox f text) as [[[x0 y0] x1] y1]. lia.
  - intros xy text fill font p Hin Hglyph.
    apply in_concat in Hin as (g & Hgin & Hin).
    destruct (Hg g Hgin) as (a & b & gc & w & xy' & text' & f & ->).
    destruct Hin as [E | [E | [E | []]]]; try discriminate E.
    injection E as -> -> _ ->. split.
    + apply in_concat. exists [Line a b gc w;
        Rectangle (bg_box (textbbox xy text font)) (255, 255, 255, 200);
        Text xy text (0, 0, 0, 255) font].
      split; [exact Hgin | right; now left].
    + unfold glyph_at in Hglyph. apply coverage_in_bbox in Hglyph.
      unfold bg_box, textbbox, in_box.
      destruct (getbbox font text) as [[[x0 y0] x1] y1].
      cbn [fst snd] in Hglyph |- *.
      repeat (apply andb_true_intro; split); apply Z.leb_le; lia.
Qed.

(** The background of the first row label of the sample run, and a pixel
    of its glyph. *)
Lemma label_on_background_witness :
  (8 + 4 <= 18 /\ 2 + 4 <= 17) /\
  glyph_at Ref.cell_font (10, 4) (lit "1") (11, 6) <> 0 /\
  in_box (bg_box (textbbox (10, 4) (lit "1") Ref.cell_font)) (11, 6) = true.
Proof.
  pose proof (label_on_background Ref.no_truetype (Ref.solid 30 30 Ref.black)
                10 (0, 0, 255) 255 2 (Ref.sample_cmds 255) (sample_cmds_ok 255))
    as [Hbox Htext].
  split.
  - apply (Hbox (8, 2, 18, 17) (255, 255, 255, 200)). right; left; reflexivity.
  - assert (Hglyph : glyph_at Ref.cell_font (10, 4) (lit "1") (11, 6) <> 0)
      by (vm_compute; discriminate).
    split; [exact Hglyph |].
    apply (Htext (10, 4) (lit "1") (0, 0, 0, 255) Ref.cell_font (11, 6));
      [right; right; left; reflexivity | exact Hglyph].
Defined.

(** X13: the image [draw_grid] returns is RGBA, and wherever the input
    is fully opaque so is the result, whatever is drawn there. *)
Theorem draw_grid_keeps_opaque `{Rasterizer} (fs : Fonts) (image : Image)
    (S : Z) (color : Z * Z * Z) (op th : Z) (ev : list Event)
    (result : Image) :
  draw_grid fs image S color op th = (ev, Ok result) ->
  mode result = "RGBA"%string /\
  forall p, alpha (getpixel image p) = 255 -> alpha (getpixel result p) = 255.
Proof.
  intros Hrun.
  apply draw_grid_ok_inv in Hrun as (overlay & cmds & _ & _ & Hcomp).
  apply alpha_composite_ok_inv in Hcomp as (_ & Hmode & Hpx).
  split; [exact Hmode |]. intros p Ha. rewrite Hpx. cbn [convert_RGBA getpixel].
  unfold alpha_composite_px.
  destruct (alpha (getpixel (fold_left exec cmds overlay) p) =? 0);
    [exact Ha |].
  cbn [alpha]. rewrite Ha.
  match goal with
  | |- SHIFTFORDIV255 (?a * 255 + 255 * (255 - ?a) + 128) = 255 =>
      replace (a * 255 + 255 * (255 - a) + 128) with 65153 by lia
  end.
  reflexivity.
Qed.

(** The sample run: the pixel (5, 20), under a translucent background,
    stays opaque. *)
Lemma draw_grid_keeps_opaque_witness :
  exists ev result,
    draw_grid (H := Ref.ref_raster) Ref.no_truetype (Ref.solid 30 30 Ref.black)
      10 (0, 0, 255) 255 2 = (ev, Ok result) /\
    alpha (getpixel result (5, 20)) = 255.
Proof.
  destruct (sample_run_returns 255) as (ev & result & Hrun).
  exists ev, result. split; [exact Hrun |].
  apply (proj2 (draw_grid_keeps_opaque (H := Ref.ref_raster) _ _ _ _ _ _ ev
                  result Hrun)).
  reflexivity.
Defined.

(** ** More on runs of [main] *)

Lemma Forall_is_log_bindM {A B} (m : M A) (k : A -> M B) :
  Forall (fun e => is_log e = true) (fst m) ->
  (forall a, snd m = Ok a -> Forall (fun e => is_log e = true) (fst (k a))) ->
  Forall (fun e => is_log e = true) (fst (bindM m k)).
Proof.
  intros Hm Hk. rewrite bindM_eq. destruct (snd m) as [a | e]; cbn [fst].
  - apply Forall_app. auto.
  - exact Hm.
Qed.

Lemma logger_debug_is_log (dbg : bool) (msg : string) :
  Forall (fun e => is_log e = true) (fst (logger_debug dbg msg)).
Proof. destruct dbg; cbn; repeat constructor. Qed.

Lemma draw_grid_is_log `{Rasterizer} (fs : Fonts) (image : Image) (S : Z)
    (color : Z * Z * Z) (op th : Z) :
  Forall (fun e => is_log e = true) (fst (draw_grid fs image S color op th)).
Proof.
  apply Forall_forall. intros e He.
  apply draw_grid_events in He as [-> | [msg ->]]; reflexivity.
Qed.

(** A run of the [try] body that ends normally, in full: the records
    logged, then the image saved under the output path, then the line
    printed. *)
Lemma main_try_ok_full `{Rasterizer} (w : World) (args : Args)
    (ev : list Event) (out : string) :
  main_try w args = (ev, Ok out) ->
  out = output_path w args /\
  exists logs img,
    ev = logs ++ [ Saved out img;
                   PrintOut ("Successfully created grid overlay: " ++ out) ] /\
    Forall (fun e => is_log e = true) logs /\
    Image_save w img out = Ok tt.
Proof.
  unfold main_try. intros Hrun.
  apply bindM_ok_inv in Hrun as (e1 & ? & r1 & H1 & Hrun & ->).
  apply bindM_ok_inv in Hrun as (e2 & ? & r2 & H2 & Hrun & ->).
  apply bindM_ok_inv in Hrun as (e3 & image & r3 & H3 & Hrun & ->).
  apply bindM_ok_inv in Hrun as (e4 & args' & r4 & H4 & Hrun & ->).
  apply bindM_ok_inv in Hrun as (e5 & out' & r5 & H5 & Hrun & ->).
  apply bindM_ok_inv in Hrun as (e6 & image1 & r6 & H6 & Hrun & ->).
  apply bindM_ok_inv in Hrun as (e7 & grid_image & r7 & H7 & Hrun & ->).
  apply bindM_ok_inv in Hrun as (e7' & ? & r7' & H7' & Hrun & ->).
  apply bindM_ok_inv in Hrun as (e8 & ? & r8 & H8 & Hrun & ->).
  apply bindM_ok_inv in Hrun as (e9 & u9 & r9 & H9 & Hrun & ->).
  apply bindM_ok_inv in Hrun as (e10 & ? & r10 & Hs & Hrun & ->).
  apply bindM_ok_inv in Hrun as (e11 & ? & r11 & Hp & Hrun & ->).
  injection Hrun as <- <-. injection Hs as <-. injection Hp as <-.
  assert (L1 : e1 = []).
  { destruct (negb (os_path_exists w (input_image args)));
      [discriminate H1 | now injection H1 as <-]. }
  assert (L2 : Forall (fun e => is_log e = true) e2).
  { injection H2 as <-. repeat constructor. }
  assert (L3 : Forall (fun e => is_log e = true) e3).
  { change e3 with (fst (e3, Ok (A := Image) image)). rewrite <- H3.
    destruct (Image_open w (input_image args)); [| constructor].
    apply Forall_is_log_bindM; [apply logger_debug_is_log | constructor]. }
  assert (L4 : Forall (fun e => is_log e = true) e4 /\
               output args' = output args /\
               input_image args' = input_image args).
  { destruct (negb ((0 <=? opacity args) && (opacity args <=? 255)));
      cbn in H4; injection H4 as <- <-; repeat constructor. }
  destruct L4 as (L4 & Eout & Ein).
  assert (L5 : Forall (fun e => is_log e = true) e5 /\
               out' = output_path w args).
  { unfold output_path. rewrite <- Eout, <- Ein.
    destruct (output args') as [o |].
    - injection H5 as <- <-. split; [constructor | reflexivity].
    - rewrite bindM_eq, logger_debug_ok in H5. cbn in H5.
      injection H5 as <- <-. rewrite app_nil_r.
      split; [apply logger_debug_is_log | reflexivity]. }
  destruct L5 as (L5 & ->).
  assert (L6 : Forall (fun e => is_log e = true) e6).
  { change e6 with (fst (e6, Ok (A := Image) image1)). rewrite <- H6.
    destruct (negb (mode image =? "RGBA")%string); [| constructor].
    apply Forall_is_log_bindM; [apply logger_debug_is_log | intros _ _].
    apply Forall_is_log_bindM; [constructor | intros _ _; constructor]. }
  assert (L7 : Forall (fun e => is_log e = true) e7).
  { change e7 with (fst (e7, Ok (A := Image) grid_image)). rewrite <- H7.
    apply draw_grid_is_log. }
  assert (L7' : e7' = []).
  { destruct (mode image =? "RGBA")%string; unfold lift, ret in H7';
      now injection H7' as <-. }
  subst e7'.
  assert (L8 : Forall (fun e => is_log e = true) e8).
  { injection H8 as <-. repeat constructor. }
  assert (L9 : e9 = [] /\ Image_save w grid_image (output_path w args) = Ok tt).
  { unfold lift in H9. injection H9 as <- E9. split; [reflexivity |].
    rewrite E9. now destruct u9. }
  destruct L9 as (-> & Hsave). subst e1.
  split; [reflexivity |].
  exists (e2 ++ e3 ++ e4 ++ e5 ++ e6 ++ e7 ++ e8), grid_image.
  split; [cbn [app]; rewrite <- !app_assoc; reflexivity |].
  split; [| exact Hsave].
  repeat (apply Forall_app; split); assumption.
Qed.

(** A run of the [try] body on an image that opens: what is logged
    first, the decoding if the image is not RGBA, then [draw_grid] (with
    the decoding if the image is RGBA), then the save. *)
Lemma main_try_run `{Rasterizer} (w : World) (args : Args) (image : Image) :
  os_path_exists w (input_image args) = true ->
  Image_open w (input_image args) = Ok image ->
  main_try w args
  = match decode_in_main w image with
    | Raise e => (prelude w args image, Raise e)
    | Ok _ =>
        match draw_grid (fonts w) (as_rgba image) (spacing args) (color args)
                (checked_opacity args) (thickness args) with
        | (evd, Ok grid_image) =>
            match decode_in_draw_grid w image with
            | Raise e => (prelude w args image ++ evd, Raise e)
            | Ok _ =>
                let saving :=
                  Log INFO ("Saving grid image to: " ++ output_path w args) in
                match Image_save w grid_image (output_path w args) with
                | Ok _ =>
                    (prelude w args image ++ evd
                     ++ [ saving; Saved (output_path w args) grid_image;
                          PrintOut ("Successfully created grid overlay: "
                                    ++ output_path w args) ],
                     Ok (output_path w args))
                | Raise e => (prelude w args image ++ evd ++ [saving], Raise e)
                end
            end
        | (evd, Raise e) => (prelude w args image ++ evd, Raise e)
        end
    end.
Proof.
  intros Hex Hopen.
  unfold main_try, prelude, checked_opacity, as_rgba, output_path,
    opacity_warning, decode_in_main, decode_in_draw_grid.
  rewrite Hex, Hopen. cbn [negb].
  destruct (debug args) eqn:Hdbg;
    destruct ((0 <=? opacity args) && (opacity args <=? 255)) eqn:Hop;
    destruct (output args) as [o |] eqn:Hout;
    destruct (mode image =? "RGBA")%string eqn:Hmode;
    destruct (Image_load w image) as [u0 | exn0] eqn:Hload;
    cbn [negb andb bindM ret emit logger_debug lift app fst snd
         input_image set_opacity opacity debug output spacing color thickness];
    rewrite ?Hdbg, ?Hout, ?Hmode, ?Hload;
    cbn [negb andb bindM ret emit logger_debug lift app fst snd];
    rewrite ?app_nil_r; try reflexivity;
    match goal with
    | |- context [draw_grid ?a1 ?a2 ?a3 ?a4 ?a5 ?a6] =>
        destruct (draw_grid a1 a2 a3 a4 a5 a6) as [evd [grid_image | exn]]
    end;
    cbn [bindM app]; rewrite ?app_nil_r; try reflexivity;
    match goal with
    | |- context [Image_save ?a1 ?a2 ?a3] =>
        destruct (Image_save a1 a2 a3) as [u | exn]
    end;
    cbn [bindM app]; rewrite ?app_nil_r; reflexivity.
Qed.



Lemma debug_banner_is_log (args : Args) :
  Forall (fun e => is_log e = true) (debug_banner args).
Proof. unfold debug_banner. destruct (debug args); repeat constructor. Qed.

(** X14: when [main] returns 0 its events are records handed to the
    logger (which [logging] writes to standard error), then the image
    saved under the output path ([--output], or the input's base name with
    [_grid.png]), then the one line printed on standard output; [main]
    itself has printed nothing to standard error, and the save had
    succeeded. *)
Theorem main_success_trace `{Rasterizer} (w : World) (args : Args) :
  snd (main w args) = 0 ->
  exists logs img,
    fst (main w args)
    = logs ++ [ Saved (output_path w args) img;
                PrintOut ("Successfully created grid overlay: "
                          ++ output_path w args) ] /\
    Forall (fun e => is_log e = true) logs /\
    Image_save w img (output_path w args) = Ok tt.
Proof.
  rewrite main_eq.
  destruct (main_try w args) as [ev [out | e]] eqn:Hrun; cbn [fst snd];
    [| discriminate].
  intros _.
  apply main_try_ok_full in Hrun as (-> & logs & img & -> & Hlogs & Hsave).
  exists (debug_banner args ++ logs), img.
  split; [now rewrite app_assoc |]. split; [| exact Hsave].
  apply Forall_app. split; [apply debug_banner_is_log | exact Hlogs].
Qed.



(** The sample machine draws and saves [photo.png]. *)
Lemma photo_main_succeeds :
  snd (main (H := Ref.ref_raster) Ref.photo_world (Ref.photo_args 128)) = 0.
Proof.
  rewrite main_eq.
  rewrite (main_try_run (H := Ref.ref_raster) Ref.photo_world
             (Ref.photo_args 128) (Ref.solid 30 30 Ref.black) eq_refl eq_refl).
  destruct (sample_run_returns 128) as (ev & result & Hrun).
  change (draw_grid (fonts Ref.photo_world)
            (as_rgba (Ref.solid 30 30 Ref.black))
            (spacing (Ref.photo_args 128)) (color (Ref.photo_args 128))
            (checked_opacity (Ref.photo_args 128))
            (thickness (Ref.photo_args 128)))
    with (draw_grid (H := Ref.ref_raster) Ref.no_truetype
            (Ref.solid 30 30 Ref.black) 10 (0, 0, 255) 128 2).
  rewrite Hrun. reflexivity.
Qed.

(** The sample machine saves under [photo_grid.png]. *)
Lemma main_success_trace_witness :
  snd (main (H := Ref.ref_raster) Ref.photo_world (Ref.photo_args 128)) = 0 /\
  exists logs img,
    fst (main (H := Ref.ref_raster) Ref.photo_world (Ref.photo_args 128))
    = logs ++ [ Saved "photo_grid.png" img;
                PrintOut "Successfully created grid overlay: photo_grid.png" ] /\
    Forall (fun e => is_log e = true) logs /\
    Image_save Ref.photo_world img "photo_grid.png" = Ok tt.
Proof.
  split; [exact photo_main_succeeds |].
  exact (main_success_trace (H := Ref.ref_raster) Ref.photo_world
           (Ref.photo_args 128) photo_main_succeeds).
Defined.




(** X17: the spacing is not checked as the opacity is: with [--spacing 0]
    and an image that opens (and, if it is not RGBA, can be decoded for
    the conversion), [main] returns 1 and reports the division by zero
    as an unexpected error. *)
Theorem main_zero_spacing `{Rasterizer} (w : World) (args : Args)
    (image : Image) :
  os_path_exists w (input_image args) = true ->
  Image_open w (input_image args) = Ok image ->
  mode image = "RGBA"%string \/ Image_load w image = Ok tt ->
  0 <= fst (size image) /\ 0 <= snd (size image) ->
  spacing args = 0 ->
  snd (main w args) = 1 /\
  In (PrintErr "Unexpected error: integer division or modulo by zero")
     (fst (main w args)).
Proof.
  intros Hex Hopen Hload Hsz Hsp.
  rewrite main_eq, (main_try_run w args image Hex Hopen), Hsp.
  assert (Hdec : exists u, decode_in_main w image = Ok u).
  { unfold decode_in_main. destruct Hload as [-> | ->].
    - exists tt. reflexivity.
    - destruct (negb (mode image =? "RGBA")%string); eauto. }
  destruct Hdec as [u ->].
  assert (Hsz' : 0 <= fst (size (as_rgba image)) /\ 0 <= snd (size (as_rgba image))).
  { unfold as_rgba. destruct (negb (mode image =? "RGBA")%string); exact Hsz. }
  destruct (load_font_ok (fonts w) (font_size 0)) as (evf & font & Hfont).
  rewrite (draw_grid_run (fonts w) (as_rgba image) 0 (color args)
             (checked_opacity args) (thickness args) Hsz' evf font Hfont).
  cbn [Z.eqb fst snd]. split; [reflexivity |].
  rewrite !in_app_iff. right; right.
  unfold handler_events, zero_division_error. cbn [exc_class exc_msg].
  right; now left.
Qed.

(** The sample machine with spacing 0; and with [photo.png] cut short,
    the image being RGBA, the division by zero still comes first. *)
Lemma main_zero_spacing_witness :
  (snd (main (H := Ref.ref_raster) Ref.photo_world
          (mkArgs "photo.png" 0 (0, 0, 255) 128 2 None false)) = 1 /\
   In (PrintErr "Unexpected error: integer division or modulo by zero")
      (fst (main (H := Ref.ref_raster) Ref.photo_world
              (mkArgs "photo.png" 0 (0, 0, 255) 128 2 None false)))) /\
  (snd (main (H := Ref.ref_raster) Ref.truncated_world
          (mkArgs "photo.png" 0 (0, 0, 255) 128 2 None false)) = 1 /\
   In (PrintErr "Unexpected error: integer division or modulo by zero")
      (fst (main (H := Ref.ref_raster) Ref.truncated_world
              (mkArgs "photo.png" 0 (0, 0, 255) 128 2 None false)))).
Proof.
  split.
  - apply (main_zero_spacing (H := Ref.ref_raster) Ref.photo_world
             (mkArgs "photo.png" 0 (0, 0, 255) 128 2 None false)
             (Ref.solid 30 30 Ref.black)).
    + reflexivity.
    + reflexivity.
    + right. reflexivity.
    + cbn [Ref.solid size fst snd]. lia.
    + reflexivity.
  - apply (main_zero_spacing (H := Ref.ref_raster) Ref.truncated_world
             (mkArgs "photo.png" 0 (0, 0, 255) 128 2 None false)
             (Ref.solid 30 30 Ref.black)).
    + reflexivity.
    + reflexivity.
    + left. reflexivity.
    + cbn [Ref.solid size fst snd]. lia.
    + reflexivity.
Defined.

Lemma filter_prelude_debug (w : World) (a1 a2 : Args) (image : Image) :
  same_but_debug a1 a2 ->
  filter (fun e => negb (is_debug_record e)) (prelude w a1 image)
  = filter (fun e => negb (is_debug_record e)) (prelude w a2 image).
Proof.
  intros (Ei & _ & _ & Eo & _ & Eout).
  unfold prelude, opacity_warning, output_path. rewrite Ei, Eo, Eout.
  destruct (debug a1); destruct (debug a2);
    destruct ((0 <=? opacity a2) && (opacity a2 <=? 255));
    destruct (output a2); destruct (negb (mode image =? "RGBA")%string);
    reflexivity.
Qed.

Lemma main_same_but_debug `{Rasterizer} (w : World) (a1 a2 : Args) :
  same_but_debug a1 a2 ->
  snd (main w a1) = snd (main w a2) /\
  filter (fun e => negb (is_debug_record e)) (fst (main w a1))
  = filter (fun e => negb (is_debug_record e)) (fst (main w a2)).
Proof.
  intros Hsame.
  pose proof (filter_prelude_debug w a1 a2) as Hprelude.
  destruct Hsame as (Ei & Es & Ec & Eo & Et & Eout).
  assert (Hbanner : forall a,
            filter (fun e => negb (is_debug_record e)) (debug_banner a) = []).
  { intros a. unfold debug_banner. destruct (debug a); reflexivity. }
  assert (Epath : output_path w a1 = output_path w a2)
    by (unfold output_path; now rewrite Ei, Eout).
  assert (Eop : checked_opacity a1 = checked_opacity a2)
    by (unfold checked_opacity; now rewrite Eo).
  rewrite (main_eq w a1), (main_eq w a2).
  assert (Hruns : exists ev1 ev2 r,
            main_try w a1 = (ev1, r) /\ main_try w a2 = (ev2, r) /\
            filter (fun e => negb (is_debug_record e)) ev1
            = filter (fun e => negb (is_debug_record e)) ev2).
  { destruct (os_path_exists w (input_image a2)) eqn:Hex.
    2:{ exists [], []. eexists. split; [| split; [| reflexivity]].
        - rewrite <- Ei in Hex. apply (main_try_missing w a1 Hex).
        - rewrite Ei. apply (main_try_missing w a2 Hex). }
    destruct (Image_open w (input_image a2)) as [image | x] eqn:Hopen.
    2:{ do 3 eexists. split; [| split].
        - rewrite <- Ei in Hex, Hopen. apply (main_try_unreadable w a1 x Hex Hopen).
        - apply (main_try_unreadable w a2 x Hex Hopen).
        - now rewrite Ei. }
    specialize (Hprelude image
                  (conj Ei (conj Es (conj Ec (conj Eo (conj Et Eout)))))).
    pose proof (main_try_run w a2 image Hex Hopen) as R2.
    rewrite <- Ei in Hex, Hopen.
    pose proof (main_try_run w a1 image Hex Hopen) as R1.
    rewrite Es, Ec, Et, Eop, Epath in R1.
    destruct (decode_in_main w image) as [u1 | e].
    2:{ do 3 eexists. split; [exact R1 | split; [exact R2 | exact Hprelude]]. }
    destruct (draw_grid (fonts w) (as_rgba image) (spacing a2) (color a2)
                (checked_opacity a2) (thickness a2)) as [evd [grid | e]].
    - destruct (decode_in_draw_grid w image) as [u2 | e].
      2:{ do 3 eexists. split; [exact R1 | split; [exact R2 |]].
          now rewrite !filter_app, Hprelude. }
      cbv zeta in R1, R2.
      destruct (Image_save w grid (output_path w a2));
        do 3 eexists; (split; [exact R1 | split; [exact R2 |]]);
        now rewrite !filter_app, Hprelude.
    - do 3 eexists. split; [exact R1 | split; [exact R2 |]].
      now rewrite !filter_app, Hprelude. }
  destruct Hruns as (ev1 & ev2 & r & -> & -> & Hev). cbn [fst snd].
  destruct r as [out | e]; cbn [fst snd];
    rewrite !filter_app, !Hbanner, Hev; auto.
Qed.

(** X18: [--debug] changes nothing but the log: the exit code is the
    same with the flag set or not, and so are the events once the records
    of level DEBUG are left out. *)
Theorem main_debug_only_logs `{Rasterizer} (w : World) (args : Args)
    (b : bool) :
  snd (main w (set_debug args b)) = snd (main w args) /\
  filter (fun e => negb (is_debug_record e)) (fst (main w (set_debug args b)))
  = filter (fun e => negb (is_debug_record e)) (fst (main w args)).
Proof.
  apply main_same_but_debug. unfold same_but_debug. cbn. tauto.
Qed.
